(** * aioswitcher: the UDP bridge (src/aioswitcher/bridge.py)

    A shallow embedding of the datagram parser of the Switcher bridge and of
    the callback that turns a broadcast datagram into a device record,
    together with the properties of the wire format that the specification
    states about them.

    Conventions of the embedding:
    - a Python [bytes] object is a [list byte];
    - a Python [str] is the [string] of its UTF-8 bytes (every string the
      parser builds from [hexlify] is ASCII, for which the two coincide);
    - a Python [int] is a [Z];
    - a Python exception is a value [Raise e] of the [result] type;
    - a float with one decimal (the electric current, the temperature
      [n / 10]) is the integer number of its tenths. *)

From Stdlib Require Import ZArith String Ascii List Lia DecimalString.
From Stdlib.Strings Require Import Byte.
From stdpp Require Import base gmap list strings.

Open Scope string_scope.
Open Scope Z_scope.

(** ** Python run time: exceptions *)

Inductive exn : Type :=
| KeyError
| ValueError
| UnicodeDecodeError
| StructError
| OSError
| OverflowError.

Inductive result (A : Type) : Type :=
| Ok (a : A)
| Raise (e : exn).

Arguments Ok {A} a.
Arguments Raise {A} e.

Definition is_ok {A} (r : result A) : Prop :=
  match r with Ok _ => True | Raise _ => False end.

(** Sequencing: the first exception raised ends the computation. *)
#[global] Instance result_ret : MRet result := fun _ a => Ok a.
#[global] Instance result_bind : MBind result := fun _ _ k r =>
  match r with
  | Ok a => k a
  | Raise e => Raise e
  end.

(** ** Python run time: bytes, slices and text *)

Definition bytes := list byte.

(** [m[a:b]] for [0 <= a <= b]: slices never raise, they clamp. *)
Definition slice {A} (a b : nat) (m : list A) : list A :=
  take (b - a) (drop a m).

(** [s[a:b]] on a [str]. *)
Definition str_slice (a b : nat) (s : string) : string :=
  substring a (b - a) s.

Definition hex_digit (n : N) : ascii :=
  match n with
  | 0 => "0" | 1 => "1" | 2 => "2" | 3 => "3" | 4 => "4" | 5 => "5"
  | 6 => "6" | 7 => "7" | 8 => "8" | 9 => "9" | 10 => "a" | 11 => "b"
  | 12 => "c" | 13 => "d" | 14 => "e" | _ => "f"
  end%N%char.

Definition hexlify_byte (b : byte) : string :=
  String (hex_digit (Byte.to_N b / 16)) (String (hex_digit (Byte.to_N b mod 16)) "").

(** [binascii.hexlify(m)], already decoded: two lower-case digits per byte. *)
Fixpoint hexlify (m : bytes) : string :=
  match m with
  | [] => ""
  | b :: m' => hexlify_byte b ++ hexlify m'
  end.

(** The value of a character as a digit in [base], as [int(s, base)] reads
    it: decimal digits and letters of either case. *)
Definition digit_value (base : Z) (c : ascii) : option Z :=
  let n := Z.of_N (N_of_ascii c) in
  let v := if (48 <=? n) && (n <=? 57) then Some (n - 48)
           else if (97 <=? n) && (n <=? 122) then Some (n - 87)
           else if (65 <=? n) && (n <=? 90) then Some (n - 55)
           else None in
  match v with
  | Some d => if d <? base then Some d else None
  | None => None
  end.

Fixpoint int_digits (base acc : Z) (s : string) : result Z :=
  match s with
  | "" => Ok acc
  | String c s' =>
      match digit_value base c with
      | Some d => int_digits base (acc * base + d) s'
      | None => Raise ValueError
      end
  end.

(** [int(s, base)] on the strings the parser passes to it, which are slices
    of a [hexlify] output: no sign, blank, underscore or prefix occurs in
    them.  The empty string and a character that is no digit of the base
    raise [ValueError]. *)
Definition int_of_str (s : string) (base : Z) : result Z :=
  match s with
  | "" => Raise ValueError
  | _ => int_digits base 0 s
  end.

(** [str.upper()] on ASCII text. *)
Definition upper_char (c : ascii) : ascii :=
  let n := N_of_ascii c in
  if ((97 <=? n) && (n <=? 122))%N then ascii_of_N (n - 32) else c.

Fixpoint upper (s : string) : string :=
  match s with
  | "" => ""
  | String c s' => String (upper_char c) (upper s')
  end.

(** [s.rstrip("\x00")]. *)
Fixpoint rstrip_nul (s : string) : string :=
  match s with
  | "" => ""
  | String c s' =>
      match rstrip_nul s' with
      | "" => if Ascii.eqb c zero then "" else String c ""
      | t => String c t
      end
  end.

Definition in_range (lo hi : N) (b : byte) : bool :=
  ((lo <=? Byte.to_N b) && (Byte.to_N b <=? hi))%N.

(** Well-formed UTF-8 (the strict codec of [bytes.decode()]): shortest
    forms only, no surrogates, nothing above U+10FFFF. *)
Fixpoint utf8_wellformed (m : bytes) : bool :=
  match m with
  | [] => true
  | b0 :: m0 =>
      if in_range 0 127 b0 then utf8_wellformed m0
      else if in_range 194 223 b0 then
        match m0 with
        | b1 :: m1 => in_range 128 191 b1 && utf8_wellformed m1
        | _ => false
        end
      else if in_range 224 239 b0 then
        match m0 with
        | b1 :: b2 :: m2 =>
            (if in_range 224 224 b0 then in_range 160 191 b1
             else if in_range 237 237 b0 then in_range 128 159 b1
             else in_range 128 191 b1)
            && in_range 128 191 b2 && utf8_wellformed m2
        | _ => false
        end
      else if in_range 240 244 b0 then
        match m0 with
        | b1 :: b2 :: b3 :: m3 =>
            (if in_range 240 240 b0 then in_range 144 191 b1
             else if in_range 244 244 b0 then in_range 128 143 b1
             else in_range 128 191 b1)
            && in_range 128 191 b2 && in_range 128 191 b3
            && utf8_wellformed m3
        | _ => false
        end
      else false
  end.

(** [m.decode()]. *)
Definition decode (m : bytes) : result string :=
  if utf8_wellformed m then Ok (string_of_list_byte m)
  else Raise UnicodeDecodeError.

(** Decimal text of an integer, as [str(n)] and ["%s" % n] print it: the
    digits of its absolute value, after a minus sign when it is negative. *)
Definition str_of_int (n : Z) : string :=
  if n <? 0
  then "-" ++ NilEmpty.string_of_uint (N.to_uint (Z.to_N (- n)))
  else NilEmpty.string_of_uint (N.to_uint (Z.to_N n)).

Definition byte_of_Z (n : Z) : byte :=
  match Byte.of_N (Z.to_N (n mod 256)) with
  | Some b => b
  | None => x00
  end.

(** [struct.pack("<L", n)] and [struct.pack(">L", n)]. *)
Definition pack_L_le (n : Z) : result bytes :=
  if (0 <=? n) && (n <? 2 ^ 32)
  then Ok [byte_of_Z n; byte_of_Z (n / 2 ^ 8); byte_of_Z (n / 2 ^ 16);
           byte_of_Z (n / 2 ^ 24)]
  else Raise StructError.

Definition pack_L_be (n : Z) : result bytes :=
  if (0 <=? n) && (n <? 2 ^ 32)
  then Ok [byte_of_Z (n / 2 ^ 24); byte_of_Z (n / 2 ^ 16);
           byte_of_Z (n / 2 ^ 8); byte_of_Z n]
  else Raise StructError.

(** [socket.inet_ntoa(packed)]: dotted quad of exactly four bytes. *)
Definition inet_ntoa (packed : bytes) : result string :=
  match packed with
  | [a; b; c; d] =>
      let dec x := str_of_int (Z.of_N (Byte.to_N x)) in
      Ok (dec a ++ "." ++ dec b ++ "." ++ dec c ++ "." ++ dec d)
  | _ => Raise OSError
  end.

(** [dict(items)]: a later item overwrites an earlier one with its key. *)
Definition dict {V} (items : list (string * V)) : gmap string V :=
  list_to_map (reverse items).

(** ** The device model (package [aioswitcher.device]) *)

(** The enumerations and records of [aioswitcher.device] are imported by
    bridge.py and declared outside it.  Their members are those of section 3
    of the specification; the wire values the specification gives ("01" and
    "00" for the state, "0" for swing off) are fixed here, the ones it
    leaves open are parameters of the parser below. *)
Module DeviceCategory.
(** Modelled from the spec: [DeviceCategory], the four categories of
    section 3. *)
Inductive t : Type := WATER_HEATER | POWER_PLUG | SHUTTER | THERMOSTAT.
#[global] Instance eq_dec : EqDecision t.
Proof. solve_decision. Defined.
End DeviceCategory.

Module DeviceState.
(** Modelled from the spec: [DeviceState], "on/off with wire encoding
    01/00". *)
Inductive t : Type := ON | OFF.
#[global] Instance eq_dec : EqDecision t.
Proof. solve_decision. Defined.
Definition value (s : t) : string :=
  match s with ON => "01" | OFF => "00" end.
End DeviceState.

Module ShutterDirection.
(** Modelled from the spec: [ShutterDirection], "direction in up, down,
    stop". *)
Inductive t : Type := SHUTTER_UP | SHUTTER_DOWN | SHUTTER_STOP.
Definition members : list t := [SHUTTER_UP; SHUTTER_DOWN; SHUTTER_STOP].
End ShutterDirection.

Module ThermostatMode.
(** Modelled from the spec: [ThermostatMode], "mode in auto, dry, fan,
    cool, heat". *)
Inductive t : Type := AUTO | DRY | FAN | COOL | HEAT.
#[global] Instance eq_dec : EqDecision t.
Proof. solve_decision. Defined.
Definition members : list t := [AUTO; DRY; FAN; COOL; HEAT].
End ThermostatMode.

Module ThermostatFanLevel.
(** Modelled from the spec: [ThermostatFanLevel], "fan level in auto, low,
    medium, high". *)
Inductive t : Type := AUTO | LOW | MEDIUM | HIGH.
Definition members : list t := [AUTO; LOW; MEDIUM; HIGH].
End ThermostatFanLevel.

Module ThermostatSwing.
(** Modelled from the spec: [ThermostatSwing], "swing in on, off", with
    "0" for off on the wire. *)
Inductive t : Type := OFF | ON.
Definition value (s : t) : string :=
  match s with OFF => "0" | ON => "1" end.
End ThermostatSwing.

(** Modelled from the spec: a member of [DeviceType] carries its model code,
    its protocol family and its category. *)
Record DeviceType : Type := {
  hex_rep : string;
  protocol_type : Z;
  category : DeviceCategory.t;
}.

#[global] Instance DeviceType_eq_dec : EqDecision DeviceType.
Proof. solve_decision. Defined.

(** Modelled from the spec: the device records of [aioswitcher.device], as
    immutable values; the arguments are those of the constructor calls of
    [_parse_device_from_datagram], in their order. *)
Inductive SwitcherBase : Type :=
| SwitcherWaterHeater
    (device_type : DeviceType) (device_state : DeviceState.t)
    (device_id ip_address mac_address name : string)
    (power_consumption electric_current : Z)
    (remaining_time auto_shutdown : string)
| SwitcherPowerPlug
    (device_type : DeviceType) (device_state : DeviceState.t)
    (device_id ip_address mac_address name : string)
    (power_consumption electric_current : Z)
| SwitcherShutter
    (device_type : DeviceType) (device_state : DeviceState.t)
    (device_id ip_address mac_address name : string)
    (position : Z) (direction : ShutterDirection.t)
| SwitcherThermostat
    (device_type : DeviceType) (device_state : DeviceState.t)
    (device_id ip_address mac_address name : string)
    (mode : ThermostatMode.t) (temperature target_temperature : Z)
    (fan_level : ThermostatFanLevel.t) (swing : ThermostatSwing.t)
    (remote_id : string).

Definition device_state_of (d : SwitcherBase) : DeviceState.t :=
  match d with
  | SwitcherWaterHeater _ s _ _ _ _ _ _ _ _ => s
  | SwitcherPowerPlug _ s _ _ _ _ _ _ => s
  | SwitcherShutter _ s _ _ _ _ _ _ => s
  | SwitcherThermostat _ s _ _ _ _ _ _ _ _ _ _ => s
  end.

(** ** The helpers of [aioswitcher.device.tools] *)

(** Modelled from the spec: [watts_to_amps] is imported from
    [aioswitcher.device.tools]; section 4.1 reads "Current = power / 220,
    one decimal, truncated".  The result is in tenths of an ampere. *)
Definition watts_to_amps (watts : Z) : Z := (watts * 10) / 220.

Definition two_digits (n : Z) : string :=
  if n <? 10 then "0" ++ str_of_int n else str_of_int n.

(** Modelled from the spec: [seconds_to_iso_time] is imported from
    [aioswitcher.device.tools]; section 4.1 reads "seconds format to
    HH:MM:SS, with hours unbounded". *)
Definition seconds_to_iso_time (all_seconds : Z) : string :=
  let minutes := all_seconds / 60 in
  let seconds := all_seconds mod 60 in
  two_digits (minutes / 60) ++ ":" ++ two_digits (minutes mod 60)
  ++ ":" ++ two_digits seconds.

(** ** What the callback does to the world *)

(** The parser logs, warns and calls the sink; a run is the list of these
    events in the order they happen, with the way the call ended. *)
Inductive event : Type :=
| LogDebug (msg : string)
| Warn (msg : string)
| Callback (device : SwitcherBase).

Definition io (A : Type) : Type := (list event * result A)%type.

#[global] Instance io_ret : MRet io := fun _ a => ([], Ok a).
#[global] Instance io_bind : MBind io := fun _ _ k m =>
  match m with
  | (t, Ok a) => let '(t', r) := k a in ((t ++ t')%list, r)
  | (t, Raise e) => (t, Raise e)
  end.

Definition emit (e : event) : io unit := ([e], Ok tt).
Definition eval {A} (r : result A) : io A := ([], r).

(** The devices handed to the sink during a run. *)
Definition delivered {A} (run : io A) : list SwitcherBase :=
  omap (fun e => match e with Callback d => Some d | _ => None end) run.1.

(** The warnings issued during a run. *)
Definition warnings {A} (run : io A) : list string :=
  omap (fun e => match e with Warn w => Some w | _ => None end) run.1.

(** [d[k]]. *)
Definition getitem {V} (d : gmap string V) (k : string) : result V :=
  match d !! k with
  | Some v => Ok v
  | None => Raise KeyError
  end.

(** ** [DatagramParser] and [_parse_device_from_datagram] *)

Section Bridge.

(** The members of [DeviceType] in the order of their declaration, the
    member [DeviceType.BREEZE], and the wire values of the enumerations whose
    codes the specification does not list. *)
Variable DeviceType_members : list DeviceType.
Variable BREEZE : DeviceType.
Variable ShutterDirection_value : ShutterDirection.t -> string.
Variable ThermostatMode_value : ThermostatMode.t -> string.
Variable ThermostatFanLevel_value : ThermostatFanLevel.t -> string.

Definition is_switcher_originator (message : bytes) : bool :=
  (str_slice 0 4 (hexlify message) =? "fef0")%string
  && ((length message =? 165)%nat
      || (length message =? 168)%nat
      || (length message =? 159)%nat).

Definition get_ip_type1 (message : bytes) : result string :=
  let hex_ip := str_slice 152 160 (hexlify message) in
  ip_addr ← int_of_str (str_slice 6 8 hex_ip ++ str_slice 4 6 hex_ip
                        ++ str_slice 2 4 hex_ip ++ str_slice 0 2 hex_ip) 16;
  packed ← pack_L_le ip_addr;
  inet_ntoa packed.

Definition get_ip_type2 (message : bytes) : result string :=
  let hex_ip := str_slice 154 162 (hexlify message) in
  ip_addr ← int_of_str (str_slice 0 2 hex_ip ++ str_slice 2 4 hex_ip
                        ++ str_slice 4 6 hex_ip ++ str_slice 6 8 hex_ip) 16;
  packed ← pack_L_be ip_addr;
  inet_ntoa packed.

Definition get_mac (message : bytes) : string :=
  let hex_mac := upper (str_slice 160 172 (hexlify message)) in
  str_slice 0 2 hex_mac ++ ":" ++ str_slice 2 4 hex_mac ++ ":"
  ++ str_slice 4 6 hex_mac ++ ":" ++ str_slice 6 8 hex_mac ++ ":"
  ++ str_slice 8 10 hex_mac ++ ":" ++ str_slice 10 12 hex_mac.

Definition get_name (message : bytes) : result string :=
  s ← decode (slice 42 74 message);
  Ok (rstrip_nul s).

Definition get_device_id (message : bytes) : string :=
  str_slice 36 42 (hexlify message).

Definition get_device_state (message : bytes) : DeviceState.t :=
  let hex_device_state := str_slice 266 268 (hexlify message) in
  if (hex_device_state =? DeviceState.value DeviceState.ON)%string
  then DeviceState.ON
  else DeviceState.OFF.

Definition get_auto_shutdown (message : bytes) : result string :=
  let hex_auto_shutdown_val := str_slice 310 318 (hexlify message) in
  int_auto_shutdown_val_secs ←
    int_of_str (str_slice 6 8 hex_auto_shutdown_val
                ++ str_slice 4 6 hex_auto_shutdown_val
                ++ str_slice 2 4 hex_auto_shutdown_val
                ++ str_slice 0 2 hex_auto_shutdown_val) 16;
  Ok (seconds_to_iso_time int_auto_shutdown_val_secs).

Definition get_power_consumption (message : bytes) : result Z :=
  let hex_power_consumption := str_slice 270 278 (hexlify message) in
  int_of_str (str_slice 2 4 hex_power_consumption
              ++ str_slice 0 2 hex_power_consumption) 16.

Definition get_remaining (message : bytes) : result string :=
  let hex_remaining_time := str_slice 294 302 (hexlify message) in
  int_remaining_time_seconds ←
    int_of_str (str_slice 6 8 hex_remaining_time
                ++ str_slice 4 6 hex_remaining_time
                ++ str_slice 2 4 hex_remaining_time
                ++ str_slice 0 2 hex_remaining_time) 16;
  Ok (seconds_to_iso_time int_remaining_time_seconds).

Definition get_device_type (message : bytes) : result DeviceType :=
  let hex_model := hexlify (slice 74 76 message) in
  let devices := dict (map (fun d => (hex_rep d, d)) DeviceType_members) in
  getitem devices hex_model.

(** Switcher Runner and Runner Mini methods *)

Definition get_shutter_position (message : bytes) : result Z :=
  let hex_pos := hexlify (slice 135 137 message) in
  decimal_part ← int_of_str (str_slice 2 4 hex_pos) 10;
  hex_part ← int_of_str (str_slice 0 2 hex_pos) 16;
  Ok (decimal_part + hex_part).

Definition get_shutter_direction (message : bytes)
  : result ShutterDirection.t :=
  let hex_direction := hexlify (slice 137 139 message) in
  let directions :=
    dict (map (fun d => (ShutterDirection_value d, d))
              ShutterDirection.members) in
  getitem directions hex_direction.

(** Switcher Breeze methods *)

(** The float [n / 10] is returned as [n], the number of its tenths. *)
Definition get_thermostat_temp (message : bytes) : result Z :=
  let hex_temp := hexlify (slice 135 137 message) in
  int_of_str (str_slice 2 4 hex_temp ++ str_slice 0 2 hex_temp) 16.

Definition get_thermostat_state (message : bytes) : DeviceState.t :=
  let hex_power := hexlify (slice 137 138 message) in
  if (hex_power =? DeviceState.value DeviceState.ON)%string
  then DeviceState.ON
  else DeviceState.OFF.

Definition get_thermostat_mode (message : bytes) : ThermostatMode.t :=
  let hex_mode := hexlify (slice 138 139 message) in
  let states :=
    dict (map (fun s => (ThermostatMode_value s, s))
              ThermostatMode.members) in
  match states !! hex_mode with
  | None => ThermostatMode.COOL
  | Some mode => mode
  end.

Definition get_thermostat_target_temp (message : bytes) : result Z :=
  let hex_temp := hexlify (slice 139 140 message) in
  int_of_str hex_temp 16.

Definition get_thermostat_fan_level (message : bytes)
  : result ThermostatFanLevel.t :=
  let hex_level := hexlify (slice 140 141 message) in
  let states :=
    dict (map (fun s => (ThermostatFanLevel_value s, s))
              ThermostatFanLevel.members) in
  getitem states (str_slice 0 1 hex_level).

Definition get_thermostat_swing (message : bytes) : ThermostatSwing.t :=
  let hex_swing := hexlify (slice 140 141 message) in
  if (str_slice 1 2 hex_swing =? ThermostatSwing.value ThermostatSwing.OFF)%string
  then ThermostatSwing.OFF
  else ThermostatSwing.ON.

Definition get_thermostat_remote_id (message : bytes) : result string :=
  decode (slice 143 151 message).

(** The callback of the bridge.  The sink [device_callback] is the
    [Callback] event; a member of an [Enum] is truthy, so
    [device_type and c] is [c].  Arguments are evaluated left to right
    before the record is built and handed to the sink. *)
Definition _parse_device_from_datagram (datagram : bytes) : io unit :=
  if negb (is_switcher_originator datagram) then
    emit (LogDebug "received datagram from an unknown source")
  else
    device_type ← eval (get_device_type datagram);
    let device_state :=
      if decide (device_type = BREEZE)
      then get_thermostat_state datagram
      else get_device_state datagram in
    '(power_consumption, electric_current) ←
      match device_state with
      | DeviceState.ON =>
          power_consumption ← eval (get_power_consumption datagram);
          mret (power_consumption, watts_to_amps power_consumption)
      | DeviceState.OFF => mret (0, 0)
      end;
    if decide (category device_type = DeviceCategory.WATER_HEATER) then
      emit (LogDebug "discovered a water heater switcher device");;
      let device_id := get_device_id datagram in
      ip ← eval (get_ip_type1 datagram);
      let mac := get_mac datagram in
      name ← eval (get_name datagram);
      remaining ←
        match device_state with
        | DeviceState.ON => eval (get_remaining datagram)
        | DeviceState.OFF => mret "00:00:00"
        end;
      auto_shutdown ← eval (get_auto_shutdown datagram);
      emit (Callback (SwitcherWaterHeater device_type device_state device_id
                        ip mac name power_consumption electric_current
                        remaining auto_shutdown))
    else if decide (category device_type = DeviceCategory.POWER_PLUG) then
      emit (LogDebug "discovered a power plug switcher device");;
      let device_id := get_device_id datagram in
      ip ← eval (get_ip_type1 datagram);
      let mac := get_mac datagram in
      name ← eval (get_name datagram);
      emit (Callback (SwitcherPowerPlug device_type device_state device_id
                        ip mac name power_consumption electric_current))
    else if decide (category device_type = DeviceCategory.SHUTTER) then
      emit (LogDebug "discovered a Runner switch switcher device");;
      let device_id := get_device_id datagram in
      ip ← eval (get_ip_type2 datagram);
      let mac := get_mac datagram in
      name ← eval (get_name datagram);
      position ← eval (get_shutter_position datagram);
      direction ← eval (get_shutter_direction datagram);
      emit (Callback (SwitcherShutter device_type DeviceState.ON device_id
                        ip mac name position direction))
    else if decide (category device_type = DeviceCategory.THERMOSTAT) then
      emit (LogDebug "discovered a Breeze switcher device");;
      let device_id := get_device_id datagram in
      ip ← eval (get_ip_type2 datagram);
      let mac := get_mac datagram in
      name ← eval (get_name datagram);
      let mode := get_thermostat_mode datagram in
      temp ← eval (get_thermostat_temp datagram);
      target ← eval (get_thermostat_target_temp datagram);
      fan_level ← eval (get_thermostat_fan_level datagram);
      let swing := get_thermostat_swing datagram in
      remote_id ← eval (get_thermostat_remote_id datagram);
      emit (Callback (SwitcherThermostat device_type device_state device_id
                        ip mac name mode temp target fan_level swing
                        remote_id))
    else
      emit (Warn "discovered an unknown switcher device").

(** The text fields that building a record of category [c] decodes, beyond
    the numeric ones: each of them returns rather than raises. *)
Definition fields_decode (c : DeviceCategory.t) (m : bytes) : Prop :=
  is_ok (get_name m)
  /\ match c with
     | DeviceCategory.SHUTTER =>
         is_ok (get_shutter_position m) /\ is_ok (get_shutter_direction m)
     | DeviceCategory.THERMOSTAT =>
         is_ok (get_thermostat_fan_level m)
         /\ is_ok (get_thermostat_remote_id m)
     | _ => True
     end.

End Bridge.

(** ** Datagrams and a catalogue to run the parser on *)

(** A datagram of [n] zero bytes, and a field written at an offset. *)
Definition blank (n : nat) : bytes := replicate n x00.

Definition put (offset : nat) (field : bytes) (m : bytes) : bytes :=
  (take offset m ++ field ++ drop (offset + length field) m)%list.

(** An instance of the parameters of the parser: one device type for each
    category, the water heater under the model code "0100" of scenario S1
    of the specification, and codes for the directions, modes and fan
    levels. *)
Module Sample.
Import DeviceCategory.

Definition HEATER : DeviceType :=
  {| hex_rep := "0100"; protocol_type := 1; category := WATER_HEATER |}.
Definition PLUG : DeviceType :=
  {| hex_rep := "01a8"; protocol_type := 1; category := POWER_PLUG |}.
Definition BREEZE : DeviceType :=
  {| hex_rep := "0e01"; protocol_type := 2; category := THERMOSTAT |}.
Definition RUNNER : DeviceType :=
  {| hex_rep := "0c01"; protocol_type := 2; category := SHUTTER |}.

Definition members : list DeviceType := [HEATER; PLUG; BREEZE; RUNNER].

Definition direction_value (d : ShutterDirection.t) : string :=
  match d with
  | ShutterDirection.SHUTTER_STOP => "0000"
  | ShutterDirection.SHUTTER_UP => "0100"
  | ShutterDirection.SHUTTER_DOWN => "0001"
  end.

Definition mode_value (m : ThermostatMode.t) : string :=
  match m with
  | ThermostatMode.AUTO => "01"
  | ThermostatMode.DRY => "02"
  | ThermostatMode.FAN => "03"
  | ThermostatMode.COOL => "04"
  | ThermostatMode.HEAT => "05"
  end.

Definition fan_level_value (l : ThermostatFanLevel.t) : string :=
  match l with
  | ThermostatFanLevel.AUTO => "0"
  | ThermostatFanLevel.LOW => "1"
  | ThermostatFanLevel.MEDIUM => "2"
  | ThermostatFanLevel.HIGH => "3"
  end.

Definition parse : bytes -> io unit :=
  _parse_device_from_datagram members BREEZE direction_value mode_value
    fan_level_value.

(** The datagram of scenario S1. *)
Definition s1_datagram : bytes :=
  put 0 [xfe; xf0]
    (put 18 [x39; x33; xac]
      (put 42 (list_byte_of_string "Boiler")
        (put 74 [x01; x00]
          (put 76 [x04; x03; x02; x01]
            (put 133 [x01]
              (put 135 [xa0; x05]
                (put 147 [x0e; x10; x00; x00] (blank 165)))))))).

(** S1 with the state byte cleared: the power and remaining bytes stay. *)
Definition s1_off_datagram : bytes := put 133 [x00] s1_datagram.

Definition s1_off_record : SwitcherBase :=
  SwitcherWaterHeater HEATER DeviceState.OFF "3933ac" "4.3.2.1"
    "00:00:00:00:00:00" "Boiler" 0 0 "00:00:00" "00:00:00".

(** S1 with a model code that no device type has. *)
Definition unknown_model_datagram : bytes := put 74 [xff; xff] s1_datagram.

(** 165 bytes, the magic and nothing else: the model code is "0000". *)
Definition bare_datagram : bytes := put 0 [xfe; xf0] (blank 165).

(** S1 with a name that is not UTF-8. *)
Definition bad_name_datagram : bytes := put 42 [xff] s1_datagram.

(** A Runner datagram with the position bytes 10 25. *)
Definition runner_datagram : bytes :=
  put 0 [xfe; xf0] (put 74 [x0c; x01] (put 135 [x10; x25] (blank 159))).

Definition runner_record : SwitcherBase :=
  SwitcherShutter RUNNER DeviceState.ON "000000" "0.0.0.0"
    "00:00:00:00:00:00" "" 41 ShutterDirection.SHUTTER_STOP.

(** Breeze datagrams with the mode byte 02 and with the mode byte 09. *)
Definition breeze_datagram : bytes :=
  put 0 [xfe; xf0] (put 74 [x0e; x01] (put 138 [x02] (blank 168))).

Definition breeze_odd_mode_datagram : bytes := put 138 [x09] breeze_datagram.

End Sample.

(** ** Vocabulary of the properties *)

(** The big-endian value of a byte string. *)
Definition uint_be (m : bytes) : Z :=
  fold_left (fun acc b => acc * 256 + Z.of_N (Byte.to_N b)) m 0.

(** The little-endian value of a byte string. *)
Definition uint_le (m : bytes) : Z := uint_be (reverse m).

Definition byte_value (b : byte) : Z := Z.of_N (Byte.to_N b).

Definition dotted_quad (a b c d : byte) : string :=
  let dec x := str_of_int (Z.of_N (Byte.to_N x)) in
  dec a ++ "." ++ dec b ++ "." ++ dec c ++ "." ++ dec d.

(** The gate as the specification words it: the magic bytes FE F0 and one
    of the three lengths. *)
Definition magic_and_length (m : bytes) : Prop :=
  take 2 m = [xfe; xf0]
  /\ (length m = 165 \/ length m = 168 \/ length m = 159)%nat.

(** The two hexadecimal digits of a byte read as a decimal number, which
    [int(s)] refuses when one of them is a letter. *)
Definition decimal_reading (b : byte) : result Z :=
  let n := byte_value b in
  if (n / 16 <? 10) && (n mod 16 <? 10)
  then Ok (10 * (n / 16) + n mod 16)
  else Raise ValueError.

(** The shutter position as the offset table of the specification lays it
    out: first byte decimal, second byte hexadecimal. *)
Definition shutter_position_as_specified (message : bytes) : result Z :=
  let hex_pos := hexlify (slice 135 137 message) in
  decimal_part ← int_of_str (str_slice 0 2 hex_pos) 10;
  hex_part ← int_of_str (str_slice 2 4 hex_pos) 16;
  Ok (decimal_part + hex_part).

(** The model code [code] resolves to the member [dt] of [DeviceType]. *)
Definition resolves (members : list DeviceType) (code : string)
  (dt : DeviceType) : Prop :=
  dict (map (fun d => (hex_rep d, d)) members) !! code = Some dt.

(** ** The TCP protocol engine (package [aioswitcher.api]) *)

(** The engine of [aioswitcher.api] is the subject of
    tests/test_api_tcp_client.py and is declared outside bridge.py.
    Section 4.3 of the specification gives the life cycle of one operation
    (send login, read one response, fail with LoginFailed if it is not a
    well-formed login response, take the session token at offset 16, send
    the request, read one response); sections 4.5 and 7 give the failures:
    an empty read is reported as "login request was not successful" during
    login and as "<operation> request was not successful" afterwards. *)
Module Api.

(** Modelled from the spec: the connection is the mocked stream pair of the
    tests; the reads return the scripted responses in turn and the empty
    bytes once the script is exhausted, the writes are recorded. *)
Record connection : Type := {
  pending : list bytes;
  written : list bytes;
}.

Definition connect (script : list bytes) : connection :=
  {| pending := script; written := [] |}.

Definition write (packet : bytes) (c : connection) : connection :=
  {| pending := pending c; written := (written c ++ [packet])%list |}.

Definition read (c : connection) : bytes * connection :=
  match pending c with
  | [] => ([], c)
  | response :: rest => (response, {| pending := rest; written := written c |})
  end.

Inductive outcome : Type :=
| Response (unparsed_response : bytes)
| RuntimeError (message : string).

(** [needle in text]. *)
Definition contains (needle text : string) : Prop :=
  exists before after, text = before ++ needle ++ after.

Section Engine.

(** The packets the engine builds and its tests of well-formedness are
    specified elsewhere (framing, CRC, response parsers); the life cycle is
    independent of them. *)
Variable login_packet : bytes.
Variable request_packet : string -> bytes -> bytes.
Variable well_formed_login : bytes -> bool.
Variable well_formed_response : string -> bytes -> bool.

Definition session_token (login_response : bytes) : bytes :=
  slice 16 20 login_response.

(** Modelled from the spec: one logical operation on a connected session,
    steps 2 to 5 of the session life cycle of section 4.3.  After each read
    the engine first looks whether the read is empty (section 4.5: "an
    empty read at any stage yields TransportClosed, surfaced as login
    request was not successful when occurring during login, and as
    <operation> request was not successful otherwise") and then whether the
    response is well formed (section 7: LoginFailed, RequestFailed). *)
Definition operation (name : string) (c : connection) : outcome * connection :=
  let c := write login_packet c in
  let '(login_response, c) := read c in
  match login_response with
  | [] => (RuntimeError "login request was not successful", c)
  | _ :: _ =>
      if negb (well_formed_login login_response) then
        (RuntimeError "login request was not successful", c)
      else
        let c :=
          write (request_packet name (session_token login_response)) c in
        let '(response, c) := read c in
        match response with
        | [] => (RuntimeError (name ++ " request was not successful"), c)
        | _ :: _ =>
            if negb (well_formed_response name response) then
              (RuntimeError (name ++ " request was not successful"), c)
            else (Response response, c)
        end
  end.

End Engine.

End Api.

(** ** Vocabulary of the properties of the fields *)

(** The two upper-case hexadecimal digits of a byte. *)
Definition hex_upper (b : byte) : string := upper (hexlify_byte b).

(** The last character of a text, if it has one. *)
Fixpoint last_char (s : string) : option ascii :=
  match s with
  | "" => None
  | String c "" => Some c
  | String _ s' => last_char s'
  end.

(** [n] NUL characters. *)
Fixpoint nuls (n : nat) : string :=
  match n with
  | O => ""
  | S n' => String zero (nuls n')
  end.

(** Every character of the text is ASCII. *)
Fixpoint is_ascii (s : string) : bool :=
  match s with
  | "" => true
  | String c s' => (N_of_ascii c <? 128)%N && is_ascii s'
  end.

(** The common attributes of a device record. *)
Definition device_type_of_record (d : SwitcherBase) : DeviceType :=
  match d with
  | SwitcherWaterHeater t _ _ _ _ _ _ _ _ _ => t
  | SwitcherPowerPlug t _ _ _ _ _ _ _ => t
  | SwitcherShutter t _ _ _ _ _ _ _ => t
  | SwitcherThermostat t _ _ _ _ _ _ _ _ _ _ _ => t
  end.

Definition device_id_of (d : SwitcherBase) : string :=
  match d with
  | SwitcherWaterHeater _ _ i _ _ _ _ _ _ _ => i
  | SwitcherPowerPlug _ _ i _ _ _ _ _ => i
  | SwitcherShutter _ _ i _ _ _ _ _ => i
  | SwitcherThermostat _ _ i _ _ _ _ _ _ _ _ _ => i
  end.

Definition ip_address_of (d : SwitcherBase) : string :=
  match d with
  | SwitcherWaterHeater _ _ _ a _ _ _ _ _ _ => a
  | SwitcherPowerPlug _ _ _ a _ _ _ _ => a
  | SwitcherShutter _ _ _ a _ _ _ _ => a
  | SwitcherThermostat _ _ _ a _ _ _ _ _ _ _ _ => a
  end.

Definition mac_address_of (d : SwitcherBase) : string :=
  match d with
  | SwitcherWaterHeater _ _ _ _ a _ _ _ _ _ => a
  | SwitcherPowerPlug _ _ _ _ a _ _ _ => a
  | SwitcherShutter _ _ _ _ a _ _ _ => a
  | SwitcherThermostat _ _ _ _ a _ _ _ _ _ _ _ => a
  end.

Definition name_of (d : SwitcherBase) : string :=
  match d with
  | SwitcherWaterHeater _ _ _ _ _ n _ _ _ _ => n
  | SwitcherPowerPlug _ _ _ _ _ n _ _ => n
  | SwitcherShutter _ _ _ _ _ n _ _ => n
  | SwitcherThermostat _ _ _ _ _ n _ _ _ _ _ _ => n
  end.

(** The category a record class stands for. *)
Definition category_of_record (d : SwitcherBase) : DeviceCategory.t :=
  match d with
  | SwitcherWaterHeater _ _ _ _ _ _ _ _ _ _ => DeviceCategory.WATER_HEATER
  | SwitcherPowerPlug _ _ _ _ _ _ _ _ => DeviceCategory.POWER_PLUG
  | SwitcherShutter _ _ _ _ _ _ _ _ => DeviceCategory.SHUTTER
  | SwitcherThermostat _ _ _ _ _ _ _ _ _ _ _ _ => DeviceCategory.THERMOSTAT
  end.

(** Datagrams of a Breeze with every field set, and the records the sample
    catalogue yields for it and for S1. *)
Module Fixtures.

Definition breeze_full_datagram : bytes :=
  put 0 [xfe; xf0]
    (put 18 [x3c; x4e; x92]
      (put 42 (list_byte_of_string "Air")
        (put 74 [x0e; x01]
          (put 77 [xc0; xa8; x01; x0a]
            (put 81 [x11; x22; x33; x44; x55]
              (put 135 [xe6; x00]
                (put 137 [x01]
                  (put 138 [x04]
                    (put 139 [x18]
                      (put 140 [x31]
                        (put 143 (list_byte_of_string "ELEC7022")
                          (blank 168)))))))))))).

Definition breeze_full_record : SwitcherBase :=
  SwitcherThermostat Sample.BREEZE DeviceState.ON "3c4e92" "192.168.1.10"
    "0A:11:22:33:44:55" "Air" ThermostatMode.COOL 230 24
    ThermostatFanLevel.HIGH ThermostatSwing.ON "ELEC7022".

Definition s1_record : SwitcherBase :=
  SwitcherWaterHeater Sample.HEATER DeviceState.ON "3933ac" "4.3.2.1"
    "00:00:00:00:00:00" "Boiler" 1440 65 "01:08:30" "00:00:00".

End Fixtures.

(** ** The event loop, the bridge and its protocol *)

(** A record written to the module logger or handed to [warnings.warn]. *)
Inductive log_record : Type :=
| Info (msg : string)
| Debug (msg : string)
| Error (msg : string)
| Critical (msg : string)
| Warning (msg : string).

(** The running event loop as far as the bridge uses it: the datagram
    endpoints it has created, each with the local port it is bound to and
    the flag that [close] sets and [is_closing] reads.  A transport is the
    index of its endpoint.  [create_datagram_endpoint] raises
    [OverflowError] for a port outside 0..65535, which [bind] refuses
    before it asks the system; whether a port in that range can be bound is
    the choice of the operating system, a parameter of the call, which
    raises [OSError] when it cannot. *)
Module Loop.

Record endpoint : Type := {
  local_port : Z;
  closing : bool;
}.

Definition create_datagram_endpoint
  (can_bind : list endpoint -> Z -> bool) (port : Z) (loop : list endpoint)
  : result (nat * list endpoint) :=
  if negb ((0 <=? port) && (port <=? 65535)) then Raise OverflowError
  else if can_bind loop port
  then Ok (length loop,
           (loop ++ [{| local_port := port; closing := false |}])%list)
  else Raise OSError.

Definition is_closing (transport : nat) (loop : list endpoint) : bool :=
  match loop !! transport with
  | Some e => closing e
  | None => true
  end.

Definition close (transport : nat) (loop : list endpoint) : list endpoint :=
  alter (fun e => {| local_port := local_port e; closing := true |})
    transport loop.

End Loop.

Definition SWITCHER_UDP_PORT_TYPE1 : Z := 20002.
Definition SWITCHER_UDP_PORT_TYPE2 : Z := 20003.

(** [UdpClientProtocol]: the transport it is connected to and the callback
    for the datagrams. *)
Record UdpClientProtocol : Type := {
  transport : option nat;
  _on_datagram : bytes -> io unit;
}.

Definition connection_made (self : UdpClientProtocol) (tr : nat)
  : UdpClientProtocol :=
  {| transport := Some tr; _on_datagram := _on_datagram self |}.

(** The sender's address [addr] is not looked at. *)
Definition datagram_received {Addr : Type} (self : UdpClientProtocol)
  (data : bytes) (addr : Addr) : io unit :=
  _on_datagram self data.

(** [exc] is the text of the exception, if there is one. *)
Definition error_received (exc : option string) : list log_record :=
  match exc with
  | Some e => [Error ("udp client received error " ++ e)]
  | None => [Warning "udp client received error"]
  end.

Definition connection_lost (exc : option string) : list log_record :=
  match exc with
  | Some e => [Critical ("udp bridge lost its connection " ++ e)]
  | None => [Info "udp connection stopped"]
  end.

(** [SwitcherBridge]: the sink [on_device] is the [Callback] event of the
    parser; [_transports] is the dict from port to transport. *)
Record SwitcherBridge : Type := {
  _broadcast_ports : list Z;
  _is_running : bool;
  _transports : gmap Z nat;
}.

Definition __init__ (broadcast_ports : list Z) : SwitcherBridge :=
  {| _broadcast_ports := broadcast_ports;
     _is_running := false;
     _transports := ∅ |}.

Definition default_broadcast_ports : list Z :=
  [SWITCHER_UDP_PORT_TYPE1; SWITCHER_UDP_PORT_TYPE2].

Definition is_running (self : SwitcherBridge) : bool := _is_running self.

Section BridgeRun.

Variable can_bind : list Loop.endpoint -> Z -> bool.

(** The loop of [start] over the ports that are left; an exception of
    [create_datagram_endpoint] ends it with the transports registered so
    far. *)
Fixpoint start_ports (ports : list Z) (self : SwitcherBridge)
  (loop : list Loop.endpoint)
  : list log_record * result unit * (SwitcherBridge * list Loop.endpoint) :=
  match ports with
  | [] => ([], Ok tt, (self, loop))
  | broadcast_port :: rest =>
      let starting :=
        Info ("starting the udp bridge on port " ++ str_of_int broadcast_port)
      in
      match Loop.create_datagram_endpoint can_bind broadcast_port loop with
      | Raise e => ([starting], Raise e, (self, loop))
      | Ok (tr, loop) =>
          let self :=
            {| _broadcast_ports := _broadcast_ports self;
               _is_running := _is_running self;
               _transports := <[broadcast_port := tr]> (_transports self) |}
          in
          let started :=
            Debug ("udp bridge on port " ++ str_of_int broadcast_port
                   ++ " started") in
          let '(logs, r, world) := start_ports rest self loop in
          (starting :: started :: logs, r, world)
      end
  end.

Definition start (self : SwitcherBridge) (loop : list Loop.endpoint)
  : list log_record * result unit * (SwitcherBridge * list Loop.endpoint) :=
  let '(logs, r, (self, loop)) :=
    start_ports (_broadcast_ports self) self loop in
  match r with
  | Ok _ =>
      (logs, Ok tt,
       ({| _broadcast_ports := _broadcast_ports self;
           _is_running := true;
           _transports := _transports self |}, loop))
  | Raise e => (logs, Raise e, (self, loop))
  end.

End BridgeRun.

(** The loop of [stop] over the ports that are left. *)
Fixpoint stop_ports (ports : list Z) (self : SwitcherBridge)
  (loop : list Loop.endpoint) : list log_record * list Loop.endpoint :=
  match ports with
  | [] => ([], loop)
  | broadcast_port :: rest =>
      let not_started :=
        Info ("udp bridge on port " ++ str_of_int broadcast_port
              ++ " not started") in
      let '(record, loop) :=
        match _transports self !! broadcast_port with
        | Some tr =>
            if negb (Loop.is_closing tr loop)
            then (Info ("stopping the udp bridge on port "
                        ++ str_of_int broadcast_port),
                  Loop.close tr loop)
            else (not_started, loop)
        | None => (not_started, loop)
        end in
      let '(logs, loop) := stop_ports rest self loop in
      (record :: logs, loop)
  end.

Definition stop (self : SwitcherBridge) (loop : list Loop.endpoint)
  : list log_record * (SwitcherBridge * list Loop.endpoint) :=
  let '(logs, loop) := stop_ports (_broadcast_ports self) self loop in
  (logs,
   ({| _broadcast_ports := _broadcast_ports self;
       _is_running := false;
       _transports := _transports self |}, loop)).

(** The asynchronous context manager starts on entry and stops on exit. *)
Definition __aenter__ (can_bind : list Loop.endpoint -> Z -> bool)
  (self : SwitcherBridge) (loop : list Loop.endpoint)
  : list log_record * result unit * (SwitcherBridge * list Loop.endpoint) :=
  start can_bind self loop.

Definition __aexit__ (self : SwitcherBridge) (loop : list Loop.endpoint)
  : list log_record * (SwitcherBridge * list Loop.endpoint) :=
  stop self loop.

(** The endpoint [create_datagram_endpoint] adds for a port. *)
Definition opened (port : Z) : Loop.endpoint :=
  {| Loop.local_port := port; Loop.closing := false |}.

(** The record [stop] logs for a port it finds no open transport for. *)
Definition not_started (port : Z) : log_record :=
  Info ("udp bridge on port " ++ str_of_int port ++ " not started").

(** The protocol that [start] hands to the loop for a port: its datagrams
    go to [_parse_device_from_datagram] with the sink of the bridge. *)
Definition bridge_protocol (parse : bytes -> io unit) : UdpClientProtocol :=
  {| transport := None; _on_datagram := parse |}.

(** * Properties *)

(** ** Slices and [hexlify] *)

Lemma slice_slice {A} (a b c d : nat) (m : list A) :
  (c + b <= d)%nat -> slice a b (slice c d m) = slice (c + a) (c + b) m.
Proof.
  intros Hd. unfold slice.
  rewrite skipn_firstn_comm, take_take, drop_drop.
  f_equal; lia.
Qed.

Lemma slice_lookup {A} (a : nat) (m : list A) (x : A) :
  m !! a = Some x -> slice a (S a) m = [x].
Proof.
  intros Hx. unfold slice. replace (S a - a)%nat with 1%nat by lia.
  rewrite <- (take_drop_middle m a x Hx) at 1.
  rewrite drop_app_length'; [reflexivity|].
  rewrite length_take. apply lookup_lt_Some in Hx. lia.
Qed.

Lemma slice_lookup_None {A} (a : nat) (m : list A) :
  m !! a = None -> slice a (S a) m = [].
Proof.
  intros Hx. unfold slice. apply lookup_ge_None in Hx.
  rewrite drop_ge by lia. apply take_nil.
Qed.

Lemma hexlify_cons (b : byte) (m : bytes) :
  hexlify (b :: m)
  = String (hex_digit (Byte.to_N b / 16))
      (String (hex_digit (Byte.to_N b mod 16)) (hexlify m)).
Proof. reflexivity. Qed.

Lemma substring_hexlify_take (k : nat) (m : bytes) :
  substring 0 (2 * k) (hexlify m) = hexlify (take k m).
Proof.
  revert m. induction k as [|k IH]; intros m.
  - destruct m; reflexivity.
  - destruct m as [|b m]; [reflexivity|].
    replace (2 * S k)%nat with (S (S (2 * k))) by lia.
    specialize (IH m). set (n := (2 * k)%nat) in *.
    rewrite hexlify_cons. cbn [take firstn substring].
    rewrite hexlify_cons, IH. reflexivity.
Qed.

Lemma substring_hexlify_drop (a n : nat) (m : bytes) :
  substring (2 * a) n (hexlify m) = substring 0 n (hexlify (drop a m)).
Proof.
  revert m. induction a as [|a IH]; intros m; [reflexivity|].
  destruct m as [|b m].
  - cbn. destruct n; reflexivity.
  - replace (2 * S a)%nat with (S (S (2 * a))) by lia.
    specialize (IH m). set (k := (2 * a)%nat) in *.
    rewrite hexlify_cons. cbn [drop skipn substring]. apply IH.
Qed.

(** A slice of the hexadecimal text at even offsets is the hexadecimal text
    of the slice of the bytes. *)
Lemma str_slice_hexlify (a b : nat) (m : bytes) :
  str_slice (2 * a) (2 * b) (hexlify m) = hexlify (slice a b m).
Proof.
  unfold str_slice, slice.
  replace (2 * b - 2 * a)%nat with (2 * (b - a))%nat by lia.
  rewrite substring_hexlify_drop. apply substring_hexlify_take.
Qed.

(** ** Reading integers back from hexadecimal text *)

Lemma digit_value_high (b : byte) :
  digit_value 16 (hex_digit (Byte.to_N b / 16))
  = Some (Z.of_N (Byte.to_N b) / 16).
Proof. destruct b; reflexivity. Qed.

Lemma digit_value_low (b : byte) :
  digit_value 16 (hex_digit (Byte.to_N b mod 16))
  = Some (Z.of_N (Byte.to_N b) mod 16).
Proof. destruct b; reflexivity. Qed.

Lemma int_digits_hexlify_cons (acc : Z) (b : byte) (m : bytes) :
  int_digits 16 acc (hexlify (b :: m))
  = int_digits 16 (acc * 256 + Z.of_N (Byte.to_N b)) (hexlify m).
Proof.
  rewrite hexlify_cons. cbn [int_digits].
  rewrite digit_value_high, digit_value_low. f_equal.
  pose proof (Z.div_mod (Z.of_N (Byte.to_N b)) 16 ltac:(lia)). lia.
Qed.

Lemma int_digits_hexlify (m : bytes) (acc : Z) :
  int_digits 16 acc (hexlify m)
  = Ok (fold_left (fun acc b => acc * 256 + Z.of_N (Byte.to_N b)) m acc).
Proof.
  revert acc. induction m as [|b m IH]; intros acc; [reflexivity|].
  rewrite int_digits_hexlify_cons. apply IH.
Qed.

Lemma int_of_str_hexlify (m : bytes) :
  m <> [] -> int_of_str (hexlify m) 16 = Ok (uint_be m).
Proof.
  intros Hm. unfold int_of_str, uint_be.
  rewrite <- int_digits_hexlify.
  destruct m as [|b m]; [congruence|]. reflexivity.
Qed.

Lemma byte_to_N_bound (b : byte) : (Byte.to_N b < 256)%N.
Proof. destruct b; reflexivity. Qed.

Lemma fold_uint_bound (m : bytes) (acc : Z) :
  0 <= acc ->
  0 <= fold_left (fun acc b => acc * 256 + Z.of_N (Byte.to_N b)) m acc
    < (acc + 1) * 256 ^ Z.of_nat (length m).
Proof.
  revert acc. induction m as [|b m IH]; intros acc Hacc.
  - cbn. lia.
  - cbn [fold_left length]. pose proof (byte_to_N_bound b) as Hb.
    specialize (IH (acc * 256 + Z.of_N (Byte.to_N b)) ltac:(lia)).
    rewrite Nat2Z.inj_succ, Z.pow_succ_r by lia.
    split; [lia|]. eapply Z.lt_le_trans; [apply IH|].
    assert (0 < 256 ^ Z.of_nat (length m)) by (apply Z.pow_pos_nonneg; lia).
    nia.
Qed.

Lemma uint_be_bound (m : bytes) :
  0 <= uint_be m < 256 ^ Z.of_nat (length m).
Proof.
  pose proof (fold_uint_bound m 0 ltac:(lia)) as H. unfold uint_be. lia.
Qed.

(** ** Fields of a datagram *)

Lemma hexlify_slice_byte (i : nat) (m : bytes) (b : byte) :
  m !! i = Some b -> hexlify (slice i (S i) m) = hexlify_byte b.
Proof. intros Hb. rewrite (slice_lookup _ _ _ Hb). reflexivity. Qed.

(** Byte [k] of the field [m[c:d]], read off the hexadecimal text. *)
Lemma field_byte (c d k : nat) (m : bytes) (b : byte) :
  (c + S k <= d)%nat -> m !! (c + k)%nat = Some b ->
  str_slice (2 * k) (2 * S k) (str_slice (2 * c) (2 * d) (hexlify m))
  = hexlify_byte b.
Proof.
  intros Hd Hb. rewrite !str_slice_hexlify, slice_slice by lia.
  replace (c + S k)%nat with (S (c + k)) by lia.
  apply hexlify_slice_byte, Hb.
Qed.

Lemma field_byte_direct (c d k : nat) (m : bytes) (b : byte) :
  (c + S k <= d)%nat -> m !! (c + k)%nat = Some b ->
  str_slice (2 * k) (2 * S k) (hexlify (slice c d m)) = hexlify_byte b.
Proof.
  intros Hd Hb. rewrite <- str_slice_hexlify. apply field_byte; assumption.
Qed.

(** Rewrite byte [k] of the field at [c..d], the offsets being literals. *)
Ltac field_at c d k H :=
  let i := eval compute in (2 * k)%nat in
  let j := eval compute in (2 * S k)%nat in
  let p := eval compute in (2 * c)%nat in
  let q := eval compute in (2 * d)%nat in
  rewrite (field_byte c d k _ _ ltac:(lia) H
           : str_slice i j (str_slice p q (hexlify _)) = _).

Ltac field_direct_at c d k H :=
  let i := eval compute in (2 * k)%nat in
  let j := eval compute in (2 * S k)%nat in
  rewrite (field_byte_direct c d k _ _ ltac:(lia) H
           : str_slice i j (hexlify (slice c d _)) = _).

Lemma int_of_str_bytes2 (a b : byte) :
  int_of_str (hexlify_byte a ++ hexlify_byte b) 16 = Ok (uint_be [a; b]).
Proof. apply (int_of_str_hexlify [a; b]). discriminate. Qed.

Lemma int_of_str_bytes4 (a b c d : byte) :
  int_of_str (hexlify_byte a ++ hexlify_byte b ++ hexlify_byte c
              ++ hexlify_byte d) 16
  = Ok (uint_be [a; b; c; d]).
Proof. apply (int_of_str_hexlify [a; b; c; d]). discriminate. Qed.

Lemma lookup_in_datagram (m : bytes) (i : nat) :
  (i < length m)%nat -> exists b, m !! i = Some b.
Proof. intros Hi. apply lookup_lt_is_Some_2 in Hi. destruct Hi; eauto. Qed.

Lemma byte_of_Z_low (q : Z) (b : byte) :
  byte_of_Z (q * 256 + Z.of_N (Byte.to_N b)) = b.
Proof.
  unfold byte_of_Z. pose proof (byte_to_N_bound b) as Hb.
  rewrite Z.add_comm, Z.mod_add by lia.
  rewrite Z.mod_small by lia. rewrite N2Z.id, Byte.of_to_N. reflexivity.
Qed.

Lemma div_256_high (q : Z) (b : byte) :
  (q * 256 + Z.of_N (Byte.to_N b)) / 256 = q.
Proof.
  pose proof (byte_to_N_bound b) as Hb.
  rewrite Z.add_comm, Z.div_add by lia.
  rewrite Z.div_small by lia. lia.
Qed.

(** Reading four bytes as a big-endian number and packing it big-endian,
    or reading and packing little-endian, gives the bytes back. *)
Lemma pack_L_be_uint_be (a b c d : byte) :
  pack_L_be (uint_be [a; b; c; d]) = Ok [a; b; c; d].
Proof.
  unfold pack_L_be. pose proof (uint_be_bound [a; b; c; d]) as Hr.
  change (256 ^ Z.of_nat (length [a; b; c; d])) with (2 ^ 32) in Hr.
  replace ((0 <=? uint_be [a; b; c; d]) && (uint_be [a; b; c; d] <? 2 ^ 32))
    with true by (symmetry; apply andb_true_iff; split; lia).
  unfold uint_be. cbn [fold_left].
  change (2 ^ 24) with (256 * (256 * 256)).
  change (2 ^ 16) with (256 * 256). change (2 ^ 8) with 256.
  rewrite <- !Z.div_div by lia.
  rewrite !div_256_high, !byte_of_Z_low. reflexivity.
Qed.

Lemma pack_L_le_uint_be (a b c d : byte) :
  pack_L_le (uint_be [d; c; b; a]) = Ok [a; b; c; d].
Proof.
  unfold pack_L_le. pose proof (uint_be_bound [d; c; b; a]) as Hr.
  change (256 ^ Z.of_nat (length [d; c; b; a])) with (2 ^ 32) in Hr.
  replace ((0 <=? uint_be [d; c; b; a]) && (uint_be [d; c; b; a] <? 2 ^ 32))
    with true by (symmetry; apply andb_true_iff; split; lia).
  unfold uint_be. cbn [fold_left].
  change (2 ^ 24) with (256 * (256 * 256)).
  change (2 ^ 16) with (256 * 256). change (2 ^ 8) with 256.
  rewrite <- !Z.div_div by lia.
  rewrite !div_256_high, !byte_of_Z_low. reflexivity.
Qed.

(** The type-1 address is the four bytes at offset 76 in wire order. *)
Lemma get_ip_type1_bytes (m : bytes) (a b c d : byte) :
  m !! 76%nat = Some a -> m !! 77%nat = Some b ->
  m !! 78%nat = Some c -> m !! 79%nat = Some d ->
  get_ip_type1 m = Ok (dotted_quad a b c d).
Proof.
  intros Ha Hb Hc Hd. unfold get_ip_type1.
  field_at 76%nat 80%nat 3%nat Hd. field_at 76%nat 80%nat 2%nat Hc.
  field_at 76%nat 80%nat 1%nat Hb. field_at 76%nat 80%nat 0%nat Ha.
  rewrite int_of_str_bytes4. cbn [mbind result_bind].
  rewrite pack_L_le_uint_be. reflexivity.
Qed.

(** The type-2 address is the four bytes at offset 77 in wire order. *)
Lemma get_ip_type2_bytes (m : bytes) (a b c d : byte) :
  m !! 77%nat = Some a -> m !! 78%nat = Some b ->
  m !! 79%nat = Some c -> m !! 80%nat = Some d ->
  get_ip_type2 m = Ok (dotted_quad a b c d).
Proof.
  intros Ha Hb Hc Hd. unfold get_ip_type2.
  field_at 77%nat 81%nat 3%nat Hd. field_at 77%nat 81%nat 2%nat Hc.
  field_at 77%nat 81%nat 1%nat Hb. field_at 77%nat 81%nat 0%nat Ha.
  rewrite int_of_str_bytes4. cbn [mbind result_bind].
  rewrite pack_L_be_uint_be. reflexivity.
Qed.

Lemma get_power_consumption_bytes (m : bytes) (a b : byte) :
  m !! 135%nat = Some a -> m !! 136%nat = Some b ->
  get_power_consumption m = Ok (uint_le [a; b]).
Proof.
  intros Ha Hb. unfold get_power_consumption.
  field_at 135%nat 139%nat 1%nat Hb. field_at 135%nat 139%nat 0%nat Ha.
  apply int_of_str_bytes2.
Qed.

Lemma get_remaining_bytes (m : bytes) (a b c d : byte) :
  m !! 147%nat = Some a -> m !! 148%nat = Some b ->
  m !! 149%nat = Some c -> m !! 150%nat = Some d ->
  get_remaining m = Ok (seconds_to_iso_time (uint_le [a; b; c; d])).
Proof.
  intros Ha Hb Hc Hd. unfold get_remaining.
  field_at 147%nat 151%nat 3%nat Hd. field_at 147%nat 151%nat 2%nat Hc.
  field_at 147%nat 151%nat 1%nat Hb. field_at 147%nat 151%nat 0%nat Ha.
  rewrite int_of_str_bytes4. reflexivity.
Qed.

Lemma get_auto_shutdown_bytes (m : bytes) (a b c d : byte) :
  m !! 155%nat = Some a -> m !! 156%nat = Some b ->
  m !! 157%nat = Some c -> m !! 158%nat = Some d ->
  get_auto_shutdown m = Ok (seconds_to_iso_time (uint_le [a; b; c; d])).
Proof.
  intros Ha Hb Hc Hd. unfold get_auto_shutdown.
  field_at 155%nat 159%nat 3%nat Hd. field_at 155%nat 159%nat 2%nat Hc.
  field_at 155%nat 159%nat 1%nat Hb. field_at 155%nat 159%nat 0%nat Ha.
  rewrite int_of_str_bytes4. reflexivity.
Qed.

Lemma get_thermostat_temp_bytes (m : bytes) (a b : byte) :
  m !! 135%nat = Some a -> m !! 136%nat = Some b ->
  get_thermostat_temp m = Ok (uint_le [a; b]).
Proof.
  intros Ha Hb. unfold get_thermostat_temp.
  field_direct_at 135%nat 137%nat 1%nat Hb.
  field_direct_at 135%nat 137%nat 0%nat Ha.
  apply int_of_str_bytes2.
Qed.

Lemma get_thermostat_target_temp_bytes (m : bytes) (a : byte) :
  m !! 139%nat = Some a ->
  get_thermostat_target_temp m = Ok (byte_value a).
Proof.
  intros Ha. unfold get_thermostat_target_temp.
  rewrite (hexlify_slice_byte _ _ _ Ha).
  apply (int_of_str_hexlify [a]). discriminate.
Qed.

Lemma int_of_str_byte_decimal (b : byte) :
  int_of_str (hexlify_byte b) 10 = decimal_reading b.
Proof. destruct b; reflexivity. Qed.

Lemma int_of_str_byte_hex (b : byte) :
  int_of_str (hexlify_byte b) 16 = Ok (byte_value b).
Proof. apply (int_of_str_hexlify [b]). discriminate. Qed.

(** What [get_shutter_position] computes from the two bytes at offset 135:
    the second byte read as decimal digits, plus the first byte. *)
Lemma get_shutter_position_bytes (m : bytes) (a b : byte) :
  m !! 135%nat = Some a -> m !! 136%nat = Some b ->
  get_shutter_position m
  = (decimal_part ← decimal_reading b; Ok (decimal_part + byte_value a)).
Proof.
  intros Ha Hb. unfold get_shutter_position.
  field_direct_at 135%nat 137%nat 1%nat Hb.
  field_direct_at 135%nat 137%nat 0%nat Ha.
  rewrite int_of_str_byte_decimal, int_of_str_byte_hex.
  destruct (decimal_reading b); reflexivity.
Qed.

Lemma hexlify_byte_01 (b : byte) : hexlify_byte b = "01" <-> b = x01.
Proof. destruct b; split; (reflexivity || discriminate). Qed.

Lemma hexlify_eq_01 (l : bytes) : hexlify l = "01" <-> l = [x01].
Proof.
  destruct l as [|b [|c l]].
  - split; discriminate.
  - change (hexlify [b]) with (hexlify_byte b). rewrite hexlify_byte_01.
    split; congruence.
  - rewrite !hexlify_cons. split; discriminate.
Qed.

Lemma hexlify_eq_fef0 (l : bytes) : hexlify l = "fef0" <-> l = [xfe; xf0].
Proof.
  split; [|intros ->; reflexivity].
  destruct l as [|a [|b [|c l]]]; rewrite ?hexlify_cons; try discriminate.
  change (hexlify []) with "". intros H.
  assert (hexlify_byte a = "fe") as Ha by (unfold hexlify_byte; congruence).
  assert (hexlify_byte b = "f0") as Hb by (unfold hexlify_byte; congruence).
  clear H. destruct a; try discriminate Ha. destruct b; try discriminate Hb.
  reflexivity.
Qed.

(** The gate of the parser is the gate of the specification. *)
Lemma is_switcher_originator_spec (m : bytes) :
  is_switcher_originator m = true <-> magic_and_length m.
Proof.
  unfold is_switcher_originator, magic_and_length.
  change (str_slice 0 4 (hexlify m)) with (str_slice (2 * 0) (2 * 2) (hexlify m)).
  rewrite str_slice_hexlify. change (slice 0 2 m) with (take 2 m).
  rewrite andb_true_iff, !orb_true_iff, String.eqb_eq, !Nat.eqb_eq.
  rewrite hexlify_eq_fef0. tauto.
Qed.

Lemma gate_length (m : bytes) :
  is_switcher_originator m = true -> (159 <= length m)%nat.
Proof.
  rewrite is_switcher_originator_spec. unfold magic_and_length. lia.
Qed.

Lemma slice_lookup_iff {A} (a : nat) (m : list A) (x : A) :
  slice a (S a) m = [x] <-> m !! a = Some x.
Proof.
  split; [|apply slice_lookup].
  destruct (m !! a) as [y|] eqn:E.
  - rewrite (slice_lookup _ _ _ E). congruence.
  - rewrite (slice_lookup_None _ _ E). discriminate.
Qed.

Lemma slice_eq_lookup {A} (a b k : nat) (m l : list A) (x : A) :
  slice a b m = l -> l !! k = Some x -> m !! (a + k)%nat = Some x.
Proof.
  intros <- H. unfold slice in H.
  apply lookup_take_Some in H. destruct H as [H _].
  rewrite lookup_drop in H. exact H.
Qed.

Lemma dict_lookup_Some {V} (items : list (string * V)) (k : string) (v : V) :
  dict items !! k = Some v -> In (k, v) items.
Proof.
  unfold dict. intros H. apply elem_of_list_to_map_2 in H.
  rewrite elem_of_reverse in H. apply list_elem_of_In. exact H.
Qed.

Lemma dict_lookup_None {V} (items : list (string * V)) (k : string) :
  dict items !! k = None -> forall v, ~ In (k, v) items.
Proof.
  unfold dict. intros H v Hin. apply not_elem_of_list_to_map_2 in H.
  apply H. rewrite fmap_reverse, elem_of_reverse.
  apply list_elem_of_fmap. exists (k, v). split; [reflexivity|].
  apply list_elem_of_In. exact Hin.
Qed.

Lemma mode_is_member (mode : ThermostatMode.t) :
  In mode ThermostatMode.members.
Proof. destruct mode; cbn; tauto. Qed.

Lemma get_device_state_ON (m : bytes) :
  get_device_state m = DeviceState.ON <-> m !! 133%nat = Some x01.
Proof.
  unfold get_device_state.
  change (str_slice 266 268 (hexlify m))
    with (str_slice (2 * 133) (2 * 134) (hexlify m)).
  rewrite str_slice_hexlify. cbn [DeviceState.value].
  rewrite <- (slice_lookup_iff 133), <- hexlify_eq_01, <- String.eqb_eq.
  destruct (hexlify (slice 133 134 m) =? "01")%string;
    split; intros; (congruence || discriminate || reflexivity).
Qed.

Lemma get_thermostat_state_ON (m : bytes) :
  get_thermostat_state m = DeviceState.ON <-> m !! 137%nat = Some x01.
Proof.
  unfold get_thermostat_state. cbn [DeviceState.value].
  rewrite <- (slice_lookup_iff 137), <- hexlify_eq_01, <- String.eqb_eq.
  destruct (hexlify (slice 137 138 m) =? "01")%string;
    split; intros; (congruence || discriminate || reflexivity).
Qed.

Lemma state_OFF_iff (s : DeviceState.t) :
  s = DeviceState.OFF <-> s <> DeviceState.ON.
Proof. destruct s; split; congruence. Qed.

(** C10.  The type-1 state parser decodes ON exactly when the byte at
    offset 133 is 0x01, and the Breeze parser exactly when the byte at
    offset 137 is 0x01; every other byte there, not only 0x00, is decoded
    as OFF. *)
Theorem state_byte_decoding (m : bytes) :
  (get_device_state m = DeviceState.ON <-> m !! 133%nat = Some x01)
  /\ (get_device_state m = DeviceState.OFF <-> m !! 133%nat <> Some x01)
  /\ (get_thermostat_state m = DeviceState.ON <-> m !! 137%nat = Some x01)
  /\ (get_thermostat_state m = DeviceState.OFF <-> m !! 137%nat <> Some x01).
Proof.
  rewrite !state_OFF_iff, get_device_state_ON, get_thermostat_state_ON.
  tauto.
Qed.

(** ** The getters of [DatagramParser], field by field *)

(** X1.  [is_switcher_originator] accepts a message exactly when it starts
    with the bytes FE F0 and is 165, 168 or 159 bytes long; every message
    shorter than 159 bytes, the empty one included, is refused. *)
Theorem originator_gate (m : bytes) :
  (is_switcher_originator m = true <-> magic_and_length m)
  /\ ((length m < 159)%nat -> is_switcher_originator m = false).
Proof.
  split; [apply is_switcher_originator_spec|].
  intros Hshort. destruct (is_switcher_originator m) eqn:E; [|reflexivity].
  apply gate_length in E. lia.
Qed.

(** X2.  The type-1 address is the four bytes at offsets 76 to 79 printed
    in wire order: reading them little-endian and packing the number
    little-endian again changes nothing. *)
Theorem ip_type1_wire_order (m : bytes) (a b c d : byte) :
  m !! 76%nat = Some a -> m !! 77%nat = Some b ->
  m !! 78%nat = Some c -> m !! 79%nat = Some d ->
  get_ip_type1 m
  = Ok (str_of_int (byte_value a) ++ "." ++ str_of_int (byte_value b) ++ "."
        ++ str_of_int (byte_value c) ++ "." ++ str_of_int (byte_value d)).
Proof. apply get_ip_type1_bytes. Qed.

(** X3.  The type-2 address is the four bytes at offsets 77 to 80 printed
    in wire order. *)
Theorem ip_type2_wire_order (m : bytes) (a b c d : byte) :
  m !! 77%nat = Some a -> m !! 78%nat = Some b ->
  m !! 79%nat = Some c -> m !! 80%nat = Some d ->
  get_ip_type2 m
  = Ok (str_of_int (byte_value a) ++ "." ++ str_of_int (byte_value b) ++ "."
        ++ str_of_int (byte_value c) ++ "." ++ str_of_int (byte_value d)).
Proof. apply get_ip_type2_bytes. Qed.

Lemma uint_le_2 (a b : byte) :
  uint_le [a; b] = byte_value a + 256 * byte_value b.
Proof. unfold uint_le, uint_be, byte_value. cbn. lia. Qed.

Lemma uint_le_4 (a b c d : byte) :
  uint_le [a; b; c; d]
  = byte_value a + 256 * byte_value b + 65536 * byte_value c
    + 16777216 * byte_value d.
Proof. unfold uint_le, uint_be, byte_value. cbn. lia. Qed.

Lemma byte_value_bound (b : byte) : 0 <= byte_value b < 256.
Proof. unfold byte_value. pose proof (byte_to_N_bound b). lia. Qed.

(** X4.  The power consumption is the unsigned 16-bit little-endian number
    at offsets 135 and 136; it lies between 0 and 65535. *)
Theorem power_consumption_little_endian (m : bytes) (a b : byte) :
  m !! 135%nat = Some a -> m !! 136%nat = Some b ->
  get_power_consumption m = Ok (byte_value a + 256 * byte_value b)
  /\ 0 <= byte_value a + 256 * byte_value b < 65536.
Proof.
  intros Ha Hb. rewrite (get_power_consumption_bytes m a b Ha Hb), uint_le_2.
  pose proof (byte_value_bound a). pose proof (byte_value_bound b).
  split; [reflexivity|lia].
Qed.

(** X5.  The remaining time and the auto shutdown time are the unsigned
    32-bit little-endian numbers of seconds at offsets 147 and 155, handed
    to [seconds_to_iso_time]. *)
Theorem durations_little_endian (m : bytes) (a b c d a' b' c' d' : byte) :
  m !! 147%nat = Some a -> m !! 148%nat = Some b ->
  m !! 149%nat = Some c -> m !! 150%nat = Some d ->
  m !! 155%nat = Some a' -> m !! 156%nat = Some b' ->
  m !! 157%nat = Some c' -> m !! 158%nat = Some d' ->
  get_remaining m
  = Ok (seconds_to_iso_time
          (byte_value a + 256 * byte_value b + 65536 * byte_value c
           + 16777216 * byte_value d))
  /\ get_auto_shutdown m
     = Ok (seconds_to_iso_time
             (byte_value a' + 256 * byte_value b' + 65536 * byte_value c'
              + 16777216 * byte_value d')).
Proof.
  intros Ha Hb Hc Hd Ha' Hb' Hc' Hd'.
  rewrite (get_remaining_bytes m a b c d), (get_auto_shutdown_bytes m a' b' c' d')
    by assumption.
  rewrite !uint_le_4. split; reflexivity.
Qed.

Lemma slice_beyond {A} (a b : nat) (m : list A) :
  (length m <= a)%nat -> slice a b m = [].
Proof. intros H. unfold slice. rewrite drop_ge by lia. apply take_nil. Qed.

Lemma str_slice_empty (a b : nat) : str_slice a b "" = "".
Proof. unfold str_slice. generalize (b - a)%nat. intros n. destruct a, n; reflexivity. Qed.

Lemma str_slice_hexlify_beyond (c d : nat) (m : bytes) :
  (length m <= c)%nat -> str_slice (2 * c) (2 * d) (hexlify m) = "".
Proof.
  intros H. rewrite str_slice_hexlify, slice_beyond by assumption. reflexivity.
Qed.

Ltac field_beyond c d H :=
  let p := eval compute in (2 * c)%nat in
  let q := eval compute in (2 * d)%nat in
  rewrite (str_slice_hexlify_beyond c d _ H : str_slice p q (hexlify _) = "").

(** X6.  A getter of a numeric field raises [ValueError] on a message that
    ends before the field starts: [int] is handed the empty text. *)
Theorem numeric_getters_short_message (m : bytes) :
  ((length m <= 76)%nat -> get_ip_type1 m = Raise ValueError)
  /\ ((length m <= 77)%nat -> get_ip_type2 m = Raise ValueError)
  /\ ((length m <= 135)%nat -> get_power_consumption m = Raise ValueError)
  /\ ((length m <= 147)%nat -> get_remaining m = Raise ValueError)
  /\ ((length m <= 155)%nat -> get_auto_shutdown m = Raise ValueError)
  /\ ((length m <= 135)%nat -> get_thermostat_temp m = Raise ValueError)
  /\ ((length m <= 139)%nat -> get_thermostat_target_temp m = Raise ValueError)
  /\ ((length m <= 136)%nat -> get_shutter_position m = Raise ValueError).
Proof.
  repeat split; intros H.
  - unfold get_ip_type1. field_beyond 76%nat 80%nat H.
    rewrite !str_slice_empty. reflexivity.
  - unfold get_ip_type2. field_beyond 77%nat 81%nat H.
    rewrite !str_slice_empty. reflexivity.
  - unfold get_power_consumption. field_beyond 135%nat 139%nat H.
    rewrite !str_slice_empty. reflexivity.
  - unfold get_remaining. field_beyond 147%nat 151%nat H.
    rewrite !str_slice_empty. reflexivity.
  - unfold get_auto_shutdown. field_beyond 155%nat 159%nat H.
    rewrite !str_slice_empty. reflexivity.
  - unfold get_thermostat_temp. rewrite slice_beyond by assumption.
    reflexivity.
  - unfold get_thermostat_target_temp. rewrite slice_beyond by assumption.
    reflexivity.
  - unfold get_shutter_position, slice.
    change (137 - 135)%nat with 2%nat.
    destruct (drop 135 m) as [|a [|b r]] eqn:E.
    + reflexivity.
    + reflexivity.
    + exfalso. assert (length (drop 135 m) = length (a :: b :: r)) as L
        by (rewrite E; reflexivity).
      rewrite length_drop in L. cbn in L. lia.
Qed.

Lemma slice_split {A} (a b c : nat) (m : list A) :
  (a <= b)%nat -> (b <= c)%nat ->
  slice a c m = (slice a b m ++ slice b c m)%list.
Proof.
  intros Hab Hbc. unfold slice.
  replace (drop b m) with (drop (b - a) (drop a m))
    by (rewrite drop_drop; f_equal; lia).
  rewrite take_take_drop. f_equal. lia.
Qed.

Lemma substring_upper (n k : nat) (s : string) :
  substring n k (upper s) = upper (substring n k s).
Proof.
  revert n k. induction s as [|c s IH]; intros n k.
  - destruct n, k; reflexivity.
  - destruct n as [|n]; destruct k as [|k]; cbn [upper substring];
      rewrite ?IH; reflexivity.
Qed.

Lemma upper_hex_upper (b : byte) : upper (hex_upper b) = hex_upper b.
Proof. destruct b; reflexivity. Qed.

Lemma get_mac_bytes (m : bytes) (a b c d e f : byte) :
  m !! 80%nat = Some a -> m !! 81%nat = Some b -> m !! 82%nat = Some c ->
  m !! 83%nat = Some d -> m !! 84%nat = Some e -> m !! 85%nat = Some f ->
  get_mac m
  = hex_upper a ++ ":" ++ hex_upper b ++ ":" ++ hex_upper c ++ ":"
    ++ hex_upper d ++ ":" ++ hex_upper e ++ ":" ++ hex_upper f.
Proof.
  intros Ha Hb Hc Hd He Hf.
  unfold get_mac, str_slice at 1 3 5 7 9 11. rewrite !substring_upper.
  change (substring 0 (2 - 0)) with (str_slice 0 2).
  change (substring 2 (4 - 2)) with (str_slice 2 4).
  change (substring 4 (6 - 4)) with (str_slice 4 6).
  change (substring 6 (8 - 6)) with (str_slice 6 8).
  change (substring 8 (10 - 8)) with (str_slice 8 10).
  change (substring 10 (12 - 10)) with (str_slice 10 12).
  field_at 80%nat 86%nat 0%nat Ha. field_at 80%nat 86%nat 1%nat Hb.
  field_at 80%nat 86%nat 2%nat Hc. field_at 80%nat 86%nat 3%nat Hd.
  field_at 80%nat 86%nat 4%nat He. field_at 80%nat 86%nat 5%nat Hf.
  reflexivity.
Qed.

(** X7.  The MAC address is the six bytes at offsets 80 to 85, each as two
    upper-case hexadecimal digits, joined by colons: 17 characters that
    [upper] leaves as they are.  On a message of at most 80 bytes the getter
    does not raise, it returns the five colons alone. *)
Theorem mac_format (m : bytes) :
  (forall a b c d e f,
     m !! 80%nat = Some a -> m !! 81%nat = Some b -> m !! 82%nat = Some c ->
     m !! 83%nat = Some d -> m !! 84%nat = Some e -> m !! 85%nat = Some f ->
     get_mac m
     = hex_upper a ++ ":" ++ hex_upper b ++ ":" ++ hex_upper c ++ ":"
       ++ hex_upper d ++ ":" ++ hex_upper e ++ ":" ++ hex_upper f
     /\ String.length (get_mac m) = 17%nat
     /\ upper (get_mac m) = get_mac m)
  /\ ((length m <= 80)%nat -> get_mac m = ":::::").
Proof.
  split.
  - intros a b c d e f Ha Hb Hc Hd He Hf.
    rewrite (get_mac_bytes m a b c d e f) by assumption.
    split; [reflexivity|]. split; [reflexivity|].
    rewrite <- (upper_hex_upper a), <- (upper_hex_upper b),
      <- (upper_hex_upper c), <- (upper_hex_upper d),
      <- (upper_hex_upper e), <- (upper_hex_upper f) at 2.
    reflexivity.
  - intros H. unfold get_mac. field_beyond 80%nat 86%nat H.
    reflexivity.
Qed.

(** X29.  The byte at offset 80 is read twice: it is the last octet of the
    type-2 address and the first octet of the MAC address. *)
Theorem type2_address_overlaps_mac (m : bytes) (a b c shared d e f g h : byte) :
  m !! 77%nat = Some a -> m !! 78%nat = Some b -> m !! 79%nat = Some c ->
  m !! 80%nat = Some shared ->
  m !! 81%nat = Some d -> m !! 82%nat = Some e -> m !! 83%nat = Some f ->
  m !! 84%nat = Some g -> m !! 85%nat = Some h ->
  get_ip_type2 m
  = Ok (str_of_int (byte_value a) ++ "." ++ str_of_int (byte_value b) ++ "."
        ++ str_of_int (byte_value c) ++ "." ++ str_of_int (byte_value shared))
  /\ get_mac m
     = hex_upper shared ++ ":" ++ hex_upper d ++ ":" ++ hex_upper e ++ ":"
       ++ hex_upper f ++ ":" ++ hex_upper g ++ ":" ++ hex_upper h.
Proof.
  intros Ha Hb Hc Hs Hd He Hf Hg Hh. split.
  - apply get_ip_type2_bytes; assumption.
  - apply get_mac_bytes; assumption.
Qed.

(** X8.  The device id is the three bytes at offsets 18 to 20 as six
    lower-case hexadecimal digits. *)
Theorem device_id_hex (m : bytes) (a b c : byte) :
  m !! 18%nat = Some a -> m !! 19%nat = Some b -> m !! 20%nat = Some c ->
  get_device_id m = hexlify_byte a ++ hexlify_byte b ++ hexlify_byte c
  /\ String.length (get_device_id m) = 6%nat.
Proof.
  intros Ha Hb Hc. unfold get_device_id.
  change (str_slice 36 42 (hexlify m))
    with (str_slice (2 * 18) (2 * 21) (hexlify m)).
  rewrite str_slice_hexlify.
  rewrite (slice_split 18 19 21), (slice_split 19 20 21) by lia.
  rewrite (slice_lookup _ _ _ Ha), (slice_lookup _ _ _ Hb),
    (slice_lookup _ _ _ Hc).
  split; reflexivity.
Qed.

Lemma rstrip_nul_length (s : string) :
  (String.length (rstrip_nul s) <= String.length s)%nat.
Proof.
  induction s as [|c s IH]; [reflexivity|]. cbn [rstrip_nul].
  destruct (rstrip_nul s) as [|c' t].
  - destruct (Ascii.eqb c zero); cbn; lia.
  - cbn in *. lia.
Qed.

Lemma rstrip_nul_last (s : string) : last_char (rstrip_nul s) <> Some zero.
Proof.
  induction s as [|c s IH]; [discriminate|]. cbn [rstrip_nul].
  destruct (rstrip_nul s) as [|c' t].
  - destruct (Ascii.eqb c zero) eqn:E; [discriminate|].
    cbn. intros [= ->]. discriminate E.
  - exact IH.
Qed.

Lemma rstrip_nul_nuls (n : nat) : rstrip_nul (nuls n) = "".
Proof. induction n as [|n IH]; [reflexivity|]. cbn. rewrite IH. reflexivity. Qed.

Lemma append_String (c : ascii) (s t : string) :
  String c s ++ t = String c (s ++ t).
Proof. reflexivity. Qed.

Lemma rstrip_nul_padded (s : string) (n : nat) :
  last_char s <> Some zero -> rstrip_nul (s ++ nuls n) = s.
Proof.
  induction s as [|c s IH]; intros Hlast.
  - apply rstrip_nul_nuls.
  - rewrite append_String. cbn [rstrip_nul]. destruct s as [|c' s'].
    + change ("" ++ nuls n) with (nuls n). rewrite rstrip_nul_nuls.
      destruct (Ascii.eqb c zero) eqn:E; [|reflexivity].
      apply Ascii.eqb_eq in E. subst. destruct Hlast. reflexivity.
    + rewrite IH by exact Hlast. reflexivity.
Qed.

Lemma string_of_list_byte_length (l : bytes) :
  String.length (string_of_list_byte l) = length l.
Proof. induction l as [|b l IH]; cbn; [reflexivity|]. f_equal. exact IH. Qed.

Lemma string_of_list_byte_app (l1 l2 : bytes) :
  string_of_list_byte (l1 ++ l2)%list
  = string_of_list_byte l1 ++ string_of_list_byte l2.
Proof.
  induction l1 as [|b l IH]; [reflexivity|].
  change (string_of_list_byte ((b :: l) ++ l2)%list)
    with (String (ascii_of_byte b) (string_of_list_byte (l ++ l2)%list)).
  rewrite IH. reflexivity.
Qed.

Lemma string_of_zero_bytes (n : nat) :
  string_of_list_byte (replicate n x00) = nuls n.
Proof. induction n as [|n IH]; [reflexivity|]. cbn. f_equal. exact IH. Qed.

Lemma to_N_byte_of_ascii (c : ascii) :
  Byte.to_N (byte_of_ascii c) = N_of_ascii c.
Proof.
  pose proof (byte_of_ascii_via_N c) as H. symmetry in H.
  apply Byte.to_of_N in H. exact H.
Qed.

Lemma utf8_wellformed_zero_bytes (n : nat) :
  utf8_wellformed (replicate n x00) = true.
Proof. induction n as [|n IH]; [reflexivity|]. cbn. exact IH. Qed.

Lemma utf8_wellformed_ascii (s : string) (n : nat) :
  is_ascii s = true ->
  utf8_wellformed (list_byte_of_string s ++ replicate n x00)%list = true.
Proof.
  induction s as [|c s IH]; intros Hs.
  - apply utf8_wellformed_zero_bytes.
  - cbn [is_ascii] in Hs. apply andb_true_iff in Hs. destruct Hs as [Hc Hs].
    change (list_byte_of_string (String c s))
      with (byte_of_ascii c :: list_byte_of_string s).
    cbn [app utf8_wellformed].
    assert (in_range 0 127 (byte_of_ascii c) = true) as ->.
    { unfold in_range. rewrite to_N_byte_of_ascii.
      apply N.ltb_lt in Hc. apply andb_true_iff. split; apply N.leb_le; lia. }
    apply IH, Hs.
Qed.

(** X9.  A name the parser returns has at most 32 characters and does not
    end with a NUL; and an ASCII name of at most 32 characters that does not
    end with a NUL, stored at offset 42 and padded with NULs to 32 bytes, is
    returned as it is. *)
Theorem name_round_trip (m : bytes) :
  (forall s, get_name m = Ok s ->
             (String.length s <= 32)%nat /\ last_char s <> Some zero)
  /\ (forall s,
        is_ascii s = true -> last_char s <> Some zero ->
        (String.length s <= 32)%nat ->
        slice 42 74 m
        = (list_byte_of_string s ++ replicate (32 - String.length s) x00)%list ->
        get_name m = Ok s).
Proof.
  split.
  - intros s. unfold get_name, decode.
    destruct (utf8_wellformed _); [|discriminate].
    cbn [mbind result_bind]. intros [= <-]. split; [|apply rstrip_nul_last].
    eapply Nat.le_trans; [apply rstrip_nul_length|].
    rewrite string_of_list_byte_length. unfold slice. rewrite length_take. lia.
  - intros s Hascii Hlast Hlen Hfield. unfold get_name, decode.
    rewrite Hfield, utf8_wellformed_ascii by assumption.
    cbn [mbind result_bind].
    rewrite string_of_list_byte_app, string_of_list_byte_of_string,
      string_of_zero_bytes, rstrip_nul_padded by assumption.
    reflexivity.
Qed.

(** X10.  The thermostat temperature is the unsigned 16-bit little-endian
    number of tenths of a degree at offsets 135 and 136, and the target
    temperature is the byte at offset 139. *)
Theorem thermostat_temperatures (m : bytes) (a b c : byte) :
  m !! 135%nat = Some a -> m !! 136%nat = Some b -> m !! 139%nat = Some c ->
  get_thermostat_temp m = Ok (byte_value a + 256 * byte_value b)
  /\ get_thermostat_target_temp m = Ok (byte_value c)
  /\ 0 <= byte_value c < 256.
Proof.
  intros Ha Hb Hc.
  rewrite (get_thermostat_temp_bytes m a b Ha Hb), uint_le_2.
  rewrite (get_thermostat_target_temp_bytes m c Hc).
  split; [reflexivity|]. split; [reflexivity|apply byte_value_bound].
Qed.

Lemma swing_low_nibble (c : byte) :
  (str_slice 1 2 (hexlify_byte c) =? "0")%string = (byte_value c mod 16 =? 0).
Proof. destruct c; reflexivity. Qed.

(** X11.  The swing is OFF exactly when the low nibble of the byte at
    offset 140 is zero; every other low nibble is ON. *)
Theorem thermostat_swing_low_nibble (m : bytes) (c : byte) :
  m !! 140%nat = Some c ->
  (get_thermostat_swing m = ThermostatSwing.OFF <-> byte_value c mod 16 = 0)
  /\ (get_thermostat_swing m = ThermostatSwing.ON <-> byte_value c mod 16 <> 0).
Proof.
  intros Hc. unfold get_thermostat_swing.
  rewrite (hexlify_slice_byte _ _ _ Hc). cbn [ThermostatSwing.value].
  rewrite swing_low_nibble.
  destruct (byte_value c mod 16 =? 0) eqn:E.
  - apply Z.eqb_eq in E. split; split; intros; (reflexivity || congruence).
  - apply Z.eqb_neq in E. split; split; intros; (reflexivity || congruence).
Qed.

(** A dict keyed by an attribute of the members of an enumeration. *)
Lemma getitem_by_key_Ok {V} (key : V -> string) (members : list V)
  (code : string) (found : V) :
  getitem (dict (map (fun x => (key x, x)) members)) code = Ok found ->
  In found members /\ key found = code.
Proof.
  unfold getitem. destruct (dict _ !! code) as [v|] eqn:E; [|discriminate].
  intros [= ->]. apply dict_lookup_Some, in_map_iff in E.
  destruct E as (x & [= <- <-] & Hin). split; [assumption|reflexivity].
Qed.

Lemma getitem_by_key_Raise {V} (key : V -> string) (members : list V)
  (code : string) (e : exn) :
  getitem (dict (map (fun x => (key x, x)) members)) code = Raise e ->
  e = KeyError /\ forall x, In x members -> key x <> code.
Proof.
  unfold getitem. destruct (dict _ !! code) as [v|] eqn:E; [discriminate|].
  intros [= <-]. split; [reflexivity|]. intros x Hin Hkey.
  apply (dict_lookup_None _ _ E x). apply in_map_iff. exists x.
  split; [congruence|assumption].
Qed.

Lemma getitem_by_key {V} (key : V -> string) (members : list V)
  (code : string) :
  (exists found, getitem (dict (map (fun x => (key x, x)) members)) code
                 = Ok found /\ In found members /\ key found = code)
  \/ (getitem (dict (map (fun x => (key x, x)) members)) code = Raise KeyError
      /\ forall x, In x members -> key x <> code).
Proof.
  destruct (getitem _ code) as [v|e] eqn:E.
  - left. exists v. split; [reflexivity|]. exact (getitem_by_key_Ok _ _ _ _ E).
  - right. destruct (getitem_by_key_Raise _ _ _ _ E) as [-> H].
    split; [reflexivity|exact H].
Qed.

(** X12.  The device type is a declared member whose model code is the
    hexadecimal text of the two bytes at offset 74; [KeyError] is raised
    exactly when no member has that code; a member that alone has the code
    is the one returned. *)
Theorem device_type_lookup (members : list DeviceType) (m : bytes) :
  let code := hexlify (slice 74 76 m) in
  (forall dt, get_device_type members m = Ok dt ->
              In dt members /\ hex_rep dt = code)
  /\ (forall e, get_device_type members m = Raise e -> e = KeyError)
  /\ (get_device_type members m = Raise KeyError
      <-> forall dt, In dt members -> hex_rep dt <> code)
  /\ (forall dt, In dt members -> hex_rep dt = code ->
                 (forall other, In other members -> hex_rep other = code ->
                                other = dt) ->
                 get_device_type members m = Ok dt).
Proof.
  intros code. unfold get_device_type. fold code.
  destruct (getitem_by_key hex_rep members code)
    as [(found & -> & Hin & Hkey)|[-> Hnone]].
  - split; [intros dt [= <-]; split; assumption|].
    split; [discriminate|]. split.
    + split; [discriminate|]. intros H. destruct (H found Hin Hkey).
    + intros dt Hdt Hcode Huniq. f_equal. apply Huniq; assumption.
  - split; [discriminate|]. split; [intros e [= <-]; reflexivity|]. split.
    + split; [intros _; exact Hnone|reflexivity].
    + intros dt Hdt Hcode _. destruct (Hnone dt Hdt Hcode).
Qed.

Lemma direction_is_member (d : ShutterDirection.t) :
  In d ShutterDirection.members.
Proof. destruct d; cbn; tauto. Qed.

Lemma fan_level_is_member (l : ThermostatFanLevel.t) :
  In l ThermostatFanLevel.members.
Proof. destruct l; cbn; tauto. Qed.

(** X13.  The shutter direction is a direction whose code is the
    hexadecimal text of the two bytes at offsets 137 and 138; [KeyError] is
    raised exactly when no direction has that code. *)
Theorem shutter_direction_lookup
  (value : ShutterDirection.t -> string) (m : bytes) (a b : byte) :
  m !! 137%nat = Some a -> m !! 138%nat = Some b ->
  let code := hexlify_byte a ++ hexlify_byte b in
  (forall d, get_shutter_direction value m = Ok d -> value d = code)
  /\ (forall d, value d = code ->
                exists d', get_shutter_direction value m = Ok d'
                           /\ value d' = code)
  /\ (get_shutter_direction value m = Raise KeyError
      <-> forall d, value d <> code).
Proof.
  intros Ha Hb code. unfold get_shutter_direction.
  rewrite (slice_split 137 138 139) by lia.
  rewrite (slice_lookup _ _ _ Ha), (slice_lookup _ _ _ Hb).
  change (hexlify ([a] ++ [b])%list) with code.
  destruct (getitem_by_key value ShutterDirection.members code)
    as [(found & -> & Hin & Hkey)|[-> Hnone]].
  - split; [intros d [= <-]; assumption|]. split.
    + intros d _. exists found. split; [reflexivity|assumption].
    + split; [discriminate|]. intros H. destruct (H found Hkey).
  - split; [discriminate|]. split.
    + intros d Hd. destruct (Hnone d (direction_is_member d) Hd).
    + split; [|reflexivity]. intros _ d. apply Hnone, direction_is_member.
Qed.

(** X14.  The fan level is a level whose code is the single hexadecimal
    digit of the high nibble of the byte at offset 140, whatever the low
    nibble is; [KeyError] is raised exactly when no level has that code. *)
Theorem fan_level_high_nibble
  (value : ThermostatFanLevel.t -> string) (m : bytes) (c : byte) :
  m !! 140%nat = Some c ->
  let code := String (hex_digit (Byte.to_N c / 16)) "" in
  (forall l, get_thermostat_fan_level value m = Ok l -> value l = code)
  /\ (forall l, value l = code ->
                exists l', get_thermostat_fan_level value m = Ok l'
                           /\ value l' = code)
  /\ (get_thermostat_fan_level value m = Raise KeyError
      <-> forall l, value l <> code).
Proof.
  intros Hc code. unfold get_thermostat_fan_level.
  rewrite (hexlify_slice_byte _ _ _ Hc).
  change (str_slice 0 1 (hexlify_byte c)) with code.
  destruct (getitem_by_key value ThermostatFanLevel.members code)
    as [(found & -> & Hin & Hkey)|[-> Hnone]].
  - split; [intros l [= <-]; assumption|]. split.
    + intros l _. exists found. split; [reflexivity|assumption].
    + split; [discriminate|]. intros H. destruct (H found Hkey).
  - split; [discriminate|]. split.
    + intros l Hl. destruct (Hnone l (fan_level_is_member l) Hl).
    + split; [|reflexivity]. intros _ l. apply Hnone, fan_level_is_member.
Qed.

Lemma decimal_reading_bound (b : byte) (n : Z) :
  decimal_reading b = Ok n -> 0 <= n <= 99.
Proof.
  unfold decimal_reading. pose proof (byte_value_bound b) as Hb.
  destruct (_ && _) eqn:E; [|discriminate]. intros [= <-].
  apply andb_true_iff in E. destruct E as [Hhi Hlo].
  apply Z.ltb_lt in Hhi, Hlo.
  pose proof (Z.div_pos (byte_value b) 16 ltac:(lia) ltac:(lia)).
  pose proof (Z.mod_pos_bound (byte_value b) 16 ltac:(lia)). lia.
Qed.

Lemma shutter_position_bounded (m : bytes) (position : Z) :
  get_shutter_position m = Ok position -> 0 <= position <= 354.
Proof.
  intros H.
  destruct (m !! 136%nat) as [b|] eqn:Hb.
  - destruct (lookup_in_datagram m 135) as [a Ha].
    { apply lookup_lt_Some in Hb. lia. }
    rewrite (get_shutter_position_bytes m a b Ha Hb) in H.
    destruct (decimal_reading b) as [n|] eqn:E; [|discriminate].
    cbn in H. injection H as <-. apply decimal_reading_bound in E.
    pose proof (byte_value_bound a). lia.
  - apply lookup_ge_None in Hb.
    unfold get_shutter_position, slice in H.
    change (137 - 135)%nat with 2%nat in H.
    destruct (drop 135 m) as [|a [|b r]] eqn:E; try discriminate H.
    exfalso. assert (length (drop 135 m) = length (a :: b :: r)) as L
      by (rewrite E; reflexivity).
    rewrite length_drop in L. cbn in L. lia.
Qed.

(** X15.  A shutter position the parser returns lies between 0 and 354, and
    both ends are reached: the bytes 00 00 give 0 and the bytes FF 99 give
    354.  The sum of a byte and of a two-digit decimal number is not clamped
    to the range 0 to 100 that the docstring names: the bytes 64 01 give
    101. *)
Theorem shutter_position_range (m : bytes) :
  (forall position, get_shutter_position m = Ok position ->
                    0 <= position <= 354)
  /\ (m !! 135%nat = Some x00 -> m !! 136%nat = Some x00 ->
      get_shutter_position m = Ok 0)
  /\ (m !! 135%nat = Some xff -> m !! 136%nat = Some x99 ->
      get_shutter_position m = Ok 354)
  /\ (m !! 135%nat = Some x64 -> m !! 136%nat = Some x01 ->
      get_shutter_position m = Ok 101).
Proof.
  split; [intros position; apply shutter_position_bounded|].
  repeat split; intros Ha Hb;
    rewrite (get_shutter_position_bytes m _ _ Ha Hb); reflexivity.
Qed.

(** ** Runs of [_parse_device_from_datagram] *)

Section Runs.

Variable DeviceType_members : list DeviceType.
Variable BREEZE : DeviceType.
Variable ShutterDirection_value : ShutterDirection.t -> string.
Variable ThermostatMode_value : ThermostatMode.t -> string.
Variable ThermostatFanLevel_value : ThermostatFanLevel.t -> string.

Abbreviation parse :=
  (_parse_device_from_datagram DeviceType_members BREEZE
     ShutterDirection_value ThermostatMode_value ThermostatFanLevel_value).
Abbreviation device_type_of := (get_device_type DeviceType_members).

(** On a datagram that passes the gate the numeric fields all decode. *)
Lemma gate_numeric_fields (m : bytes) :
  is_switcher_originator m = true ->
  exists ip1 ip2 power remaining auto temp target,
    get_ip_type1 m = Ok ip1 /\ get_ip_type2 m = Ok ip2
    /\ get_power_consumption m = Ok power
    /\ get_remaining m = Ok remaining /\ get_auto_shutdown m = Ok auto
    /\ get_thermostat_temp m = Ok temp
    /\ get_thermostat_target_temp m = Ok target.
Proof.
  intros Hg. apply gate_length in Hg.
  destruct (lookup_in_datagram m 76 ltac:(lia)) as [b76 H76].
  destruct (lookup_in_datagram m 77 ltac:(lia)) as [b77 H77].
  destruct (lookup_in_datagram m 78 ltac:(lia)) as [b78 H78].
  destruct (lookup_in_datagram m 79 ltac:(lia)) as [b79 H79].
  destruct (lookup_in_datagram m 80 ltac:(lia)) as [b80 H80].
  destruct (lookup_in_datagram m 135 ltac:(lia)) as [b135 H135].
  destruct (lookup_in_datagram m 136 ltac:(lia)) as [b136 H136].
  destruct (lookup_in_datagram m 139 ltac:(lia)) as [b139 H139].
  destruct (lookup_in_datagram m 147 ltac:(lia)) as [b147 H147].
  destruct (lookup_in_datagram m 148 ltac:(lia)) as [b148 H148].
  destruct (lookup_in_datagram m 149 ltac:(lia)) as [b149 H149].
  destruct (lookup_in_datagram m 150 ltac:(lia)) as [b150 H150].
  destruct (lookup_in_datagram m 155 ltac:(lia)) as [b155 H155].
  destruct (lookup_in_datagram m 156 ltac:(lia)) as [b156 H156].
  destruct (lookup_in_datagram m 157 ltac:(lia)) as [b157 H157].
  destruct (lookup_in_datagram m 158 ltac:(lia)) as [b158 H158].
  eexists _, _, _, _, _, _, _.
  rewrite (get_ip_type1_bytes m _ _ _ _ H76 H77 H78 H79).
  rewrite (get_ip_type2_bytes m _ _ _ _ H77 H78 H79 H80).
  rewrite (get_power_consumption_bytes m _ _ H135 H136).
  rewrite (get_remaining_bytes m _ _ _ _ H147 H148 H149 H150).
  rewrite (get_auto_shutdown_bytes m _ _ _ _ H155 H156 H157 H158).
  rewrite (get_thermostat_temp_bytes m _ _ H135 H136).
  rewrite (get_thermostat_target_temp_bytes m _ H139).
  repeat split; reflexivity.
Qed.

(** Unfold one run: the gate is open and the device type is known, the
    numeric fields are replaced by their values, and every other field is
    split into the value it returns or the exception it raises. *)
Ltac step_io :=
  cbn [mbind mret io_bind io_ret result_bind result_ret eval emit
       app fst snd negb].

Ltac run_parse Hg Hdt :=
  let H := fresh "Hnum" in
  pose proof (gate_numeric_fields _ Hg) as H;
  destruct H as (ip1 & ip2 & power & remaining & auto & temp & target
                 & Hip1 & Hip2 & Hpower & Hrem & Hauto & Htemp & Htarget);
  unfold _parse_device_from_datagram;
  rewrite Hg, Hdt, ?Hip1, ?Hip2, ?Hpower, ?Hrem, ?Hauto, ?Htemp, ?Htarget;
  step_io;
  repeat first
    [ progress step_io
    | rewrite Hip1 | rewrite Hip2 | rewrite Hpower | rewrite Hrem
    | rewrite Hauto | rewrite Htemp | rewrite Htarget
    | match goal with
      | |- context [if decide ?P then _ else _] => destruct (decide P)
      | |- context [match ?s with DeviceState.ON => _ | DeviceState.OFF => _ end] =>
          destruct s eqn:?
      | H : category ?dt <> DeviceCategory.WATER_HEATER,
        H0 : category ?dt <> DeviceCategory.POWER_PLUG,
        H1 : category ?dt <> DeviceCategory.SHUTTER,
        H2 : category ?dt <> DeviceCategory.THERMOSTAT |- _ =>
          exfalso; destruct (category dt); congruence
      | |- context [get_name ?m] => destruct (get_name m) eqn:?
      | |- context [get_shutter_position ?m] =>
          destruct (get_shutter_position m) eqn:?
      | |- context [get_shutter_direction ?v ?m] =>
          destruct (get_shutter_direction v m) eqn:?
      | |- context [get_thermostat_fan_level ?v ?m] =>
          destruct (get_thermostat_fan_level v m) eqn:?
      | |- context [get_thermostat_remote_id ?m] =>
          destruct (get_thermostat_remote_id m) eqn:?
      end ].


Lemma parse_gate_closed (m : bytes) :
  is_switcher_originator m = false ->
  parse m = ([LogDebug "received datagram from an unknown source"], Ok tt).
Proof.
  intros Hg. unfold _parse_device_from_datagram. rewrite Hg. reflexivity.
Qed.

Lemma parse_unknown_model (m : bytes) (e : exn) :
  is_switcher_originator m = true -> device_type_of m = Raise e ->
  parse m = ([], Raise e).
Proof.
  intros Hg Hdt. unfold _parse_device_from_datagram. rewrite Hg, Hdt.
  reflexivity.
Qed.

Lemma get_device_type_raises (m : bytes) (e : exn) :
  device_type_of m = Raise e -> e = KeyError.
Proof.
  unfold get_device_type, getitem.
  destruct (dict _ !! _); congruence.
Qed.

Lemma get_shutter_direction_raises (m : bytes) (e : exn) :
  get_shutter_direction ShutterDirection_value m = Raise e -> e = KeyError.
Proof.
  unfold get_shutter_direction, getitem. destruct (dict _ !! _); congruence.
Qed.

Lemma get_thermostat_fan_level_raises (m : bytes) (e : exn) :
  get_thermostat_fan_level ThermostatFanLevel_value m = Raise e ->
  e = KeyError.
Proof.
  unfold get_thermostat_fan_level, getitem.
  destruct (dict _ !! _); congruence.
Qed.

Lemma get_name_raises (m : bytes) (e : exn) :
  get_name m = Raise e -> e = UnicodeDecodeError.
Proof.
  unfold get_name, decode. destruct (utf8_wellformed _); cbn; congruence.
Qed.

Lemma get_thermostat_remote_id_raises (m : bytes) (e : exn) :
  get_thermostat_remote_id m = Raise e -> e = UnicodeDecodeError.
Proof.
  unfold get_thermostat_remote_id, decode.
  destruct (utf8_wellformed _); congruence.
Qed.

Lemma get_shutter_position_raises (m : bytes) (e : exn) :
  is_switcher_originator m = true ->
  get_shutter_position m = Raise e -> e = ValueError.
Proof.
  intros Hg. pose proof (gate_length m Hg) as Hlen.
  destruct (lookup_in_datagram m 135 ltac:(lia)) as [a Ha].
  destruct (lookup_in_datagram m 136 ltac:(lia)) as [b Hb].
  rewrite (get_shutter_position_bytes m a b Ha Hb). unfold decimal_reading.
  destruct (_ && _); cbn; congruence.
Qed.

(** The branch that warns about an unknown device is never taken: a model
    code outside the enumeration has already raised [KeyError]. *)
Lemma parse_never_warns (m : bytes) : warnings (parse m) = [].
Proof.
  destruct (is_switcher_originator m) eqn:Hg;
    [|rewrite parse_gate_closed by assumption; reflexivity].
  destruct (device_type_of m) as [dt|e] eqn:Hdt;
    [|rewrite (parse_unknown_model m e) by assumption; reflexivity].
  run_parse Hg Hdt; reflexivity.
Qed.

Lemma delivered_needs_gate (m : bytes) :
  delivered (parse m) <> [] ->
  is_switcher_originator m = true /\ exists dt, device_type_of m = Ok dt.
Proof.
  intros Hd.
  destruct (is_switcher_originator m) eqn:Hg;
    [|rewrite parse_gate_closed in Hd by assumption; contradiction].
  destruct (device_type_of m) as [dt|e] eqn:Hdt;
    [eauto|rewrite (parse_unknown_model m e) in Hd by assumption; contradiction].
Qed.

(** C1 (as amended).  The parser hands a device to the sink exactly when
    the payload starts with FE F0, has one of the lengths 165, 168, 159, its
    model code resolves to a device type and the text fields of that type's
    category decode; a payload that fails the gate only logs the debug line
    and delivers nothing. *)
Theorem device_delivered_iff (m : bytes) :
  (delivered (parse m) <> []
   <-> magic_and_length m
       /\ exists dt, device_type_of m = Ok dt
                     /\ fields_decode ShutterDirection_value
                          ThermostatFanLevel_value (category dt) m)
  /\ (~ magic_and_length m ->
      parse m = ([LogDebug "received datagram from an unknown source"], Ok tt)).
Proof.
  split; [split|].
  - intros Hd. destruct (delivered_needs_gate m Hd) as [Hg [dt Hdt]].
    split; [apply is_switcher_originator_spec, Hg|].
    exists dt. split; [assumption|]. unfold fields_decode.
    revert Hd. run_parse Hg Hdt; cbn [delivered omap list_omap fst];
      intros Hd; try contradiction;
      repeat match goal with
             | H : category _ = _ |- _ => rewrite H
             | H : _ = Ok _ |- _ => rewrite H
             end; cbn; tauto.
  - intros [Hg (dt & Hdt & Hf)]. apply is_switcher_originator_spec in Hg.
    unfold fields_decode in Hf.
    revert Hf. run_parse Hg Hdt; cbn [delivered omap list_omap fst];
      intros Hf; try discriminate; exfalso;
      repeat match goal with
             | H : category _ = _ |- _ => rewrite H in Hf
             | H : _ = Raise _ |- _ => rewrite H in Hf
             end; cbn in Hf; tauto.
  - intros Hg. apply parse_gate_closed.
    destruct (is_switcher_originator m) eqn:E; [|reflexivity].
    apply is_switcher_originator_spec in E. contradiction.
Qed.

(** C2 (as amended).  Parsing is a function of the payload.  A payload that
    fails the gate ends in the not-mine signal and raises nothing; a payload
    that passes it with a known model code either hands exactly one device
    to the sink or raises [KeyError], [ValueError] or [UnicodeDecodeError]
    after its debug line, and then hands over nothing. *)
Theorem parse_outcomes (m : bytes) :
  (forall m', m' = m -> parse m' = parse m)
  /\ (is_switcher_originator m = false ->
      parse m = ([LogDebug "received datagram from an unknown source"], Ok tt))
  /\ (forall dt,
        is_switcher_originator m = true -> device_type_of m = Ok dt ->
        exists msg,
          (exists d, parse m = ([LogDebug msg; Callback d], Ok tt))
          \/ (exists e, parse m = ([LogDebug msg], Raise e)
                        /\ (e = KeyError \/ e = ValueError
                            \/ e = UnicodeDecodeError))).
Proof.
  split; [intros m' ->; reflexivity|].
  split; [apply parse_gate_closed|].
  intros dt Hg Hdt.
  run_parse Hg Hdt; eexists;
    first [ left; eexists; reflexivity
          | right; eexists; split; [reflexivity|];
            repeat match goal with
                   | H : _ = Raise _ |- _ =>
                       first [ apply get_shutter_direction_raises in H
                             | apply get_thermostat_fan_level_raises in H
                             | apply get_name_raises in H
                             | apply get_thermostat_remote_id_raises in H
                             | apply (get_shutter_position_raises _ _ Hg) in H ];
                       subst
                   end; tauto ].
Qed.

(** What a record handed to the sink owes to the datagram. *)
Lemma delivered_record (m : bytes) (d : SwitcherBase) :
  In d (delivered (parse m)) ->
  match d with
  | SwitcherWaterHeater _ state _ _ _ _ power current remaining _ =>
      state = DeviceState.OFF ->
      power = 0 /\ current = 0 /\ remaining = "00:00:00"
  | SwitcherPowerPlug _ state _ _ _ _ power current =>
      state = DeviceState.OFF -> power = 0 /\ current = 0
  | SwitcherShutter _ state _ _ _ _ position _ =>
      state = DeviceState.ON /\ get_shutter_position m = Ok position
  | SwitcherThermostat _ _ _ _ _ _ mode _ _ _ _ _ =>
      mode = get_thermostat_mode ThermostatMode_value m
  end.
Proof.
  intros Hd.
  assert (delivered (parse m) <> []) as Hne by (intros E; rewrite E in Hd; destruct Hd).
  destruct (delivered_needs_gate m Hne) as [Hg [dt Hdt]]. clear Hne.
  revert Hd. run_parse Hg Hdt; cbn [delivered omap list_omap fst In];
    intros Hd; try contradiction; destruct Hd as [<-|[]];
    repeat split; (assumption || reflexivity || discriminate).
Qed.

(** A shutter datagram whose position does not decode hands nothing to the
    sink; once its name has decoded, the run ends in the exception of the
    position. *)
Lemma shutter_run_on_position_error (m : bytes) (dt : DeviceType) (e : exn) :
  is_switcher_originator m = true -> device_type_of m = Ok dt ->
  category dt = DeviceCategory.SHUTTER ->
  get_shutter_position m = Raise e ->
  delivered (parse m) = []
  /\ forall name,
       get_name m = Ok name ->
       parse m
       = ([LogDebug "discovered a Runner switch switcher device"], Raise e).
Proof.
  intros Hg Hdt Hcat Hraise.
  run_parse Hg Hdt; try congruence; try discriminate Hraise;
    (split; [reflexivity|intros name Hname; congruence]).
Qed.

(** C4 (as amended).  The shutter position is the first byte at offset 135
    read as a number plus the two hexadecimal digits of the second byte read
    as a decimal number, and a shutter record carries that position.  When
    one of those two digits is a letter, [get_shutter_position] raises
    [ValueError], no shutter record is handed to the sink, and a shutter
    datagram hands no record at all: once its name has decoded, the run
    ends in [ValueError] after the debug line. *)
Theorem shutter_position_decoding (m : bytes) (a b : byte) :
  m !! 135%nat = Some a -> m !! 136%nat = Some b ->
  get_shutter_position m
  = (if (byte_value b / 16 <? 10) && (byte_value b mod 16 <? 10)
     then Ok (10 * (byte_value b / 16) + byte_value b mod 16 + byte_value a)
     else Raise ValueError)
  /\ (forall dt state id ip mac name position direction,
        In (SwitcherShutter dt state id ip mac name position direction)
           (delivered (parse m)) ->
        position
        = 10 * (byte_value b / 16) + byte_value b mod 16 + byte_value a)
  /\ ((byte_value b / 16 <? 10) && (byte_value b mod 16 <? 10) = false ->
      get_shutter_position m = Raise ValueError
      /\ (forall dt state id ip mac name position direction,
            ~ In (SwitcherShutter dt state id ip mac name position direction)
                 (delivered (parse m)))
      /\ (forall dt,
            is_switcher_originator m = true -> device_type_of m = Ok dt ->
            category dt = DeviceCategory.SHUTTER ->
            delivered (parse m) = []
            /\ forall name,
                 get_name m = Ok name ->
                 parse m
                 = ([LogDebug "discovered a Runner switch switcher device"],
                    Raise ValueError))).
Proof.
  intros Ha Hb.
  assert (get_shutter_position m
          = (if (byte_value b / 16 <? 10) && (byte_value b mod 16 <? 10)
             then Ok (10 * (byte_value b / 16) + byte_value b mod 16
                      + byte_value a)
             else Raise ValueError)) as Hpos.
  { rewrite (get_shutter_position_bytes m a b Ha Hb). unfold decimal_reading.
    destruct (_ && _); reflexivity. }
  split; [exact Hpos|]. split.
  - intros dt state id ip mac name position direction Hd.
    apply delivered_record in Hd. destruct Hd as [_ Hd].
    rewrite Hpos in Hd. destruct (_ && _); congruence.
  - intros Hletter. rewrite Hletter in Hpos.
    split; [exact Hpos|]. split.
    + intros dt state id ip mac name position direction Hd.
      apply delivered_record in Hd. destruct Hd as [_ Hd]. congruence.
    + intros dt Hg Hdt Hcat.
      exact (shutter_run_on_position_error m dt ValueError Hg Hdt Hcat Hpos).
Qed.

(** C6.  A water heater or power plug record whose state is off has power
    consumption 0 and electric current 0.0, and an off water heater has the
    remaining time "00:00:00", whatever the power and remaining bytes of the
    datagram are. *)
Theorem off_means_zero (m : bytes) (d : SwitcherBase) :
  In d (delivered (parse m)) ->
  device_state_of d = DeviceState.OFF ->
  match d with
  | SwitcherWaterHeater _ _ _ _ _ _ power current remaining _ =>
      power = 0 /\ current = 0 /\ remaining = "00:00:00"
  | SwitcherPowerPlug _ _ _ _ _ _ power current => power = 0 /\ current = 0
  | _ => True
  end.
Proof.
  intros Hd Hoff. apply delivered_record in Hd.
  destruct d; cbn in Hoff; auto.
Qed.

(** C9.  Every shutter record handed to the sink has the device state ON,
    whatever the payload holds. *)
Theorem shutter_state_always_on
  (m : bytes) (dt : DeviceType) (state : DeviceState.t)
  (id ip mac name : string) (position : Z) (direction : ShutterDirection.t) :
  In (SwitcherShutter dt state id ip mac name position direction)
     (delivered (parse m)) ->
  state = DeviceState.ON.
Proof.
  intros Hd. apply delivered_record in Hd. tauto.
Qed.

Lemma mode_lookup_Some (code : string) (found : ThermostatMode.t) :
  dict (map (fun s => (ThermostatMode_value s, s)) ThermostatMode.members)
    !! code = Some found ->
  ThermostatMode_value found = code.
Proof.
  intros H. apply dict_lookup_Some, in_map_iff in H.
  destruct H as (s & E & _). congruence.
Qed.

(** C7.  With [b] the mode byte at offset 138: when no thermostat mode has
    the code of [b] the parsed mode is COOL, and when one has, the parsed
    mode is a mode with that code, so the mode the code maps to; the
    thermostat record carries the parsed mode. *)
Theorem thermostat_mode_decoding (m : bytes) (b : byte) :
  m !! 138%nat = Some b ->
  ((forall mode, ThermostatMode_value mode <> hexlify_byte b) ->
   get_thermostat_mode ThermostatMode_value m = ThermostatMode.COOL)
  /\ (forall mode,
        ThermostatMode_value mode = hexlify_byte b ->
        ThermostatMode_value (get_thermostat_mode ThermostatMode_value m)
        = hexlify_byte b
        /\ ((forall other, ThermostatMode_value other = hexlify_byte b ->
                           other = mode) ->
            get_thermostat_mode ThermostatMode_value m = mode))
  /\ (forall dt state id ip mac name mode temp target fan swing remote,
        In (SwitcherThermostat dt state id ip mac name mode temp target fan
              swing remote) (delivered (parse m)) ->
        mode = get_thermostat_mode ThermostatMode_value m).
Proof.
  intros Hb.
  unfold get_thermostat_mode. rewrite (hexlify_slice_byte _ _ _ Hb).
  split; [|split].
  - intros Hnone.
    destruct (dict _ !! hexlify_byte b) as [found|] eqn:E; [|reflexivity].
    apply mode_lookup_Some in E. destruct (Hnone found E).
  - intros mode Hmode.
    destruct (dict _ !! hexlify_byte b) as [found|] eqn:E.
    + apply mode_lookup_Some in E. split; [assumption|]. intros Huniq.
      apply Huniq. assumption.
    + exfalso. eapply (dict_lookup_None _ _ E mode).
      apply in_map_iff. exists mode. split; [congruence|apply mode_is_member].
  - intros dt state id ip mac name mode temp target fan swing remote Hd.
    apply delivered_record in Hd. rewrite Hd. unfold get_thermostat_mode.
    rewrite (hexlify_slice_byte _ _ _ Hb). reflexivity.
Qed.

(** C5 (as amended).  A 165-byte datagram with magic FE F0, the bytes
    39 33 AC at offset 18, the model code 01 00 at offset 74 resolving to a
    water heater type, the bytes 04 03 02 01 at offset 76, the state byte 01
    at offset 133, the power bytes A0 05 at offset 135, the remaining bytes
    0E 10 00 00 at offset 147 and a name field that is UTF-8 yields one
    water heater record with id "3933ac", ip "4.3.2.1" (the address bytes in
    wire order), state on, power 1440 W, current 6.5 A and remaining
    "01:08:30" (4110 seconds). *)
Theorem water_heater_discovery (m : bytes) (dt : DeviceType) (name : string) :
  length m = 165%nat ->
  slice 0 2 m = [xfe; xf0] ->
  slice 18 21 m = [x39; x33; xac] ->
  slice 74 76 m = [x01; x00] ->
  slice 76 80 m = [x04; x03; x02; x01] ->
  slice 133 134 m = [x01] ->
  slice 135 137 m = [xa0; x05] ->
  slice 147 151 m = [x0e; x10; x00; x00] ->
  resolves DeviceType_members "0100" dt ->
  category dt = DeviceCategory.WATER_HEATER ->
  category BREEZE = DeviceCategory.THERMOSTAT ->
  get_name m = Ok name ->
  exists auto_shutdown,
    parse m
    = ([LogDebug "discovered a water heater switcher device";
        Callback (SwitcherWaterHeater dt DeviceState.ON "3933ac" "4.3.2.1"
                    (get_mac m) name 1440 65 "01:08:30" auto_shutdown)],
       Ok tt).
Proof.
  intros Hlen Hmagic Hid Hmodel Hip Hstate Hpower Hremaining Hdt Hcat Hbreeze
    Hname.
  assert (is_switcher_originator m = true) as Hg.
  { apply is_switcher_originator_spec. split; [exact Hmagic|lia]. }
  destruct (gate_numeric_fields m Hg)
    as (_ & _ & _ & _ & auto & _ & _ & _ & _ & _ & _ & Hauto & _).
  exists auto.
  assert (get_device_type DeviceType_members m = Ok dt) as Htype.
  { unfold get_device_type, getitem. rewrite Hmodel.
    change (hexlify [x01; x00]) with "0100". unfold resolves in Hdt.
    rewrite Hdt. reflexivity. }
  assert (get_device_state m = DeviceState.ON) as Hon.
  { apply get_device_state_ON, slice_lookup_iff, Hstate. }
  assert (get_device_id m = "3933ac") as Hdevid.
  { unfold get_device_id.
    change (str_slice 36 42 (hexlify m))
      with (str_slice (2 * 18) (2 * 21) (hexlify m)).
    rewrite str_slice_hexlify, Hid. reflexivity. }
  assert (get_ip_type1 m = Ok "4.3.2.1") as Haddr.
  { apply (get_ip_type1_bytes m x04 x03 x02 x01).
    - exact (slice_eq_lookup 76 80 0 m _ _ Hip eq_refl).
    - exact (slice_eq_lookup 76 80 1 m _ _ Hip eq_refl).
    - exact (slice_eq_lookup 76 80 2 m _ _ Hip eq_refl).
    - exact (slice_eq_lookup 76 80 3 m _ _ Hip eq_refl). }
  assert (get_power_consumption m = Ok 1440) as Hwatts.
  { apply (get_power_consumption_bytes m xa0 x05).
    - exact (slice_eq_lookup 135 137 0 m _ _ Hpower eq_refl).
    - exact (slice_eq_lookup 135 137 1 m _ _ Hpower eq_refl). }
  assert (get_remaining m = Ok "01:08:30") as Hleft.
  { apply (get_remaining_bytes m x0e x10 x00 x00).
    - exact (slice_eq_lookup 147 151 0 m _ _ Hremaining eq_refl).
    - exact (slice_eq_lookup 147 151 1 m _ _ Hremaining eq_refl).
    - exact (slice_eq_lookup 147 151 2 m _ _ Hremaining eq_refl).
    - exact (slice_eq_lookup 147 151 3 m _ _ Hremaining eq_refl). }
  unfold _parse_device_from_datagram. rewrite Hg, Htype. step_io.
  destruct (decide (dt = BREEZE)) as [->|_]; [congruence|].
  rewrite Hon, Hwatts. step_io.
  destruct (decide (category dt = DeviceCategory.WATER_HEATER)); [|contradiction].
  step_io. rewrite Haddr. step_io. rewrite Hname. step_io.
  rewrite Hleft. step_io. rewrite Hauto. step_io.
  rewrite Hdevid. reflexivity.
Qed.

(** A datagram that passes the gate with a model code outside the
    enumeration raises [KeyError] out of [get_device_type]: nothing is
    logged, nothing is warned and the sink is not called. *)
Lemma parse_unknown_model_code (m : bytes) :
  is_switcher_originator m = true ->
  (forall dt, In dt DeviceType_members
              -> hex_rep dt <> hexlify (slice 74 76 m)) ->
  parse m = ([], Raise KeyError).
Proof.
  intros Hg Hunknown. apply parse_unknown_model; [assumption|].
  unfold get_device_type, getitem.
  destruct (dict _ !! _) as [dt|] eqn:E; [|reflexivity].
  apply dict_lookup_Some, in_map_iff in E. destruct E as (d & E & Hin).
  injection E as E1 E2. destruct (Hunknown d Hin E1).
Qed.

(** Every argument of a record handed to the sink, traced to its getter. *)
Lemma delivered_fields (m : bytes) (d : SwitcherBase) :
  In d (delivered (parse m)) ->
  exists dt,
    device_type_of m = Ok dt
    /\ let state :=
         if decide (dt = BREEZE) then get_thermostat_state m
         else get_device_state m in
       match d with
       | SwitcherWaterHeater t s i ip mac name power current remaining auto =>
           t = dt /\ category dt = DeviceCategory.WATER_HEATER /\ s = state
           /\ i = get_device_id m /\ get_ip_type1 m = Ok ip
           /\ mac = get_mac m /\ get_name m = Ok name
           /\ get_auto_shutdown m = Ok auto
           /\ (s = DeviceState.ON ->
               get_power_consumption m = Ok power
               /\ current = watts_to_amps power
               /\ get_remaining m = Ok remaining)
       | SwitcherPowerPlug t s i ip mac name power current =>
           t = dt /\ category dt = DeviceCategory.POWER_PLUG /\ s = state
           /\ i = get_device_id m /\ get_ip_type1 m = Ok ip
           /\ mac = get_mac m /\ get_name m = Ok name
           /\ (s = DeviceState.ON ->
               get_power_consumption m = Ok power
               /\ current = watts_to_amps power)
       | SwitcherShutter t s i ip mac name position direction =>
           t = dt /\ category dt = DeviceCategory.SHUTTER
           /\ i = get_device_id m /\ get_ip_type2 m = Ok ip
           /\ mac = get_mac m /\ get_name m = Ok name
           /\ get_shutter_direction ShutterDirection_value m = Ok direction
       | SwitcherThermostat t s i ip mac name mode temp target fan swing
           remote =>
           t = dt /\ category dt = DeviceCategory.THERMOSTAT /\ s = state
           /\ i = get_device_id m /\ get_ip_type2 m = Ok ip
           /\ mac = get_mac m /\ get_name m = Ok name
           /\ get_thermostat_temp m = Ok temp
           /\ get_thermostat_target_temp m = Ok target
           /\ get_thermostat_fan_level ThermostatFanLevel_value m = Ok fan
           /\ swing = get_thermostat_swing m
           /\ get_thermostat_remote_id m = Ok remote
       end.
Proof.
  intros Hd.
  assert (delivered (parse m) <> []) as Hne
    by (intros E; rewrite E in Hd; destruct Hd).
  destruct (delivered_needs_gate m Hne) as [Hg [dt Hdt]]. clear Hne.
  exists dt. split; [exact Hdt|]. cbv zeta.
  revert Hd. run_parse Hg Hdt; cbn [delivered omap list_omap fst In];
    intros Hd; try contradiction; destruct Hd as [<-|[]];
    repeat match goal with
           | |- context [decide (?x = BREEZE)] => destruct (decide (x = BREEZE))
           end;
    try contradiction;
    repeat split;
    (assumption || reflexivity || discriminate || (symmetry; assumption)
     || congruence).
Qed.

(** X16.  A run of the callback has one of four shapes: the debug line of
    a foreign datagram; [KeyError] before anything is logged; a debug line
    followed by an exception; a debug line followed by one call of the sink
    and a normal return.  So the sink is called at most once for a datagram,
    as the last thing the callback does, and no warning is ever issued. *)
Theorem run_shape (m : bytes) :
  (parse m = ([LogDebug "received datagram from an unknown source"], Ok tt)
   \/ parse m = ([], Raise KeyError)
   \/ (exists msg e, parse m = ([LogDebug msg], Raise e))
   \/ (exists msg d, parse m = ([LogDebug msg; Callback d], Ok tt)))
  /\ (length (delivered (parse m)) <= 1)%nat
  /\ warnings (parse m) = [].
Proof.
  assert (parse m = ([LogDebug "received datagram from an unknown source"],
                     Ok tt)
          \/ parse m = ([], Raise KeyError)
          \/ (exists msg e, parse m = ([LogDebug msg], Raise e))
          \/ (exists msg d, parse m = ([LogDebug msg; Callback d], Ok tt)))
    as Hshape.
  { destruct (is_switcher_originator m) eqn:Hg;
      [|left; apply parse_gate_closed, Hg].
    destruct (device_type_of m) as [dt|e] eqn:Hdt.
    - right. right. run_parse Hg Hdt;
        first [ right; eexists _, _; reflexivity
              | left; eexists _, _; reflexivity ].
    - right. left. rewrite (get_device_type_raises m e Hdt) in Hdt.
      apply parse_unknown_model; assumption. }
  split; [exact Hshape|].
  destruct Hshape as [E|[E|[(msg & e & E)|(msg & d & E)]]]; rewrite E;
    split; (reflexivity || (cbn; lia)).
Qed.

(** X17.  A record handed to the sink carries the device type that the
    model code resolves to, the device id, the MAC address and the name
    that the getters return for the datagram, and its class is the one of
    the category of its device type. *)
Theorem record_identity (m : bytes) (d : SwitcherBase) :
  In d (delivered (parse m)) ->
  device_type_of m = Ok (device_type_of_record d)
  /\ device_id_of d = get_device_id m
  /\ mac_address_of d = get_mac m
  /\ get_name m = Ok (name_of d)
  /\ category (device_type_of_record d) = category_of_record d.
Proof.
  intros Hd. destruct (delivered_fields m d Hd) as (dt & Hdt & H).
  destruct d; cbn in *; intuition congruence.
Qed.

(** X18.  The address of a water heater or power plug record is read by
    [get_ip_type1] (offset 76), the address of a shutter or thermostat
    record by [get_ip_type2] (offset 77). *)
Theorem record_address_by_family (m : bytes) (d : SwitcherBase) :
  In d (delivered (parse m)) ->
  match category_of_record d with
  | DeviceCategory.WATER_HEATER | DeviceCategory.POWER_PLUG =>
      get_ip_type1 m = Ok (ip_address_of d)
  | DeviceCategory.SHUTTER | DeviceCategory.THERMOSTAT =>
      get_ip_type2 m = Ok (ip_address_of d)
  end.
Proof.
  intros Hd. destruct (delivered_fields m d Hd) as (dt & Hdt & H).
  destruct d; cbn in *; tauto.
Qed.

(** X19.  The state of a water heater, power plug or thermostat record is
    the Breeze state byte (offset 137) when its device type is the member
    BREEZE and the type-1 state byte (offset 133) for every other device
    type. *)
Theorem record_state_source (m : bytes) (d : SwitcherBase) :
  In d (delivered (parse m)) ->
  category_of_record d <> DeviceCategory.SHUTTER ->
  (device_type_of_record d = BREEZE ->
   device_state_of d = get_thermostat_state m)
  /\ (device_type_of_record d <> BREEZE ->
      device_state_of d = get_device_state m).
Proof.
  intros Hd Hcat. destruct (delivered_fields m d Hd) as (dt & Hdt & H).
  destruct d; cbn in *; try contradiction;
    destruct H as (-> & _ & -> & _);
    destruct (decide (dt = BREEZE)); split; intros; (reflexivity || contradiction).
Qed.

(** X20.  A water heater or power plug record whose state is on carries
    the power that [get_power_consumption] reads and the current that
    [watts_to_amps] derives from it; an on water heater carries the
    remaining time of [get_remaining]; a water heater carries the auto
    shutdown time of [get_auto_shutdown] whether it is on or off. *)
Theorem record_power_fields (m : bytes) (d : SwitcherBase) :
  In d (delivered (parse m)) ->
  match d with
  | SwitcherWaterHeater _ state _ _ _ _ power current remaining auto =>
      get_auto_shutdown m = Ok auto
      /\ (state = DeviceState.ON ->
          get_power_consumption m = Ok power
          /\ current = watts_to_amps power
          /\ get_remaining m = Ok remaining)
  | SwitcherPowerPlug _ state _ _ _ _ power current =>
      state = DeviceState.ON ->
      get_power_consumption m = Ok power /\ current = watts_to_amps power
  | _ => True
  end.
Proof.
  intros Hd. destruct (delivered_fields m d Hd) as (dt & Hdt & H).
  destruct d; cbn in *; tauto.
Qed.

(** X21.  A thermostat record carries the temperature, target temperature,
    fan level, swing and remote id that the Breeze getters read from the
    datagram, and a shutter record the direction of
    [get_shutter_direction]. *)
Theorem record_type2_fields (m : bytes) (d : SwitcherBase) :
  In d (delivered (parse m)) ->
  match d with
  | SwitcherThermostat _ _ _ _ _ _ _ temp target fan swing remote =>
      get_thermostat_temp m = Ok temp
      /\ get_thermostat_target_temp m = Ok target
      /\ get_thermostat_fan_level ThermostatFanLevel_value m = Ok fan
      /\ swing = get_thermostat_swing m
      /\ get_thermostat_remote_id m = Ok remote
  | SwitcherShutter _ _ _ _ _ _ _ direction =>
      get_shutter_direction ShutterDirection_value m = Ok direction
  | _ => True
  end.
Proof.
  intros Hd. destruct (delivered_fields m d Hd) as (dt & Hdt & H).
  destruct d; cbn in *; tauto.
Qed.

(** X22.  On a message that passes the gate none of the numeric getters
    raises: the two addresses, the power, the two durations and the two
    temperatures all decode. *)
Theorem numeric_getters_total_on_gate (m : bytes) :
  is_switcher_originator m = true ->
  is_ok (get_ip_type1 m) /\ is_ok (get_ip_type2 m)
  /\ is_ok (get_power_consumption m) /\ is_ok (get_remaining m)
  /\ is_ok (get_auto_shutdown m) /\ is_ok (get_thermostat_temp m)
  /\ is_ok (get_thermostat_target_temp m).
Proof.
  intros Hg. destruct (gate_numeric_fields m Hg)
    as (? & ? & ? & ? & ? & ? & ? & -> & -> & -> & -> & -> & -> & ->).
  cbn. tauto.
Qed.

End Runs.

(** ** The parser on the sample datagrams *)

Example s1_run :
  Sample.parse Sample.s1_datagram
  = ([LogDebug "discovered a water heater switcher device";
      Callback (SwitcherWaterHeater Sample.HEATER DeviceState.ON "3933ac"
                  "4.3.2.1" "00:00:00:00:00:00" "Boiler" 1440 65 "01:08:30"
                  "00:00:00")],
     Ok tt).
Proof. vm_compute. reflexivity. Qed.

Example bad_name_run :
  Sample.parse Sample.bad_name_datagram
  = ([LogDebug "discovered a water heater switcher device"],
     Raise UnicodeDecodeError).
Proof. vm_compute. reflexivity. Qed.

Example runner_run :
  Sample.parse Sample.runner_datagram
  = ([LogDebug "discovered a Runner switch switcher device";
      Callback Sample.runner_record],
     Ok tt).
Proof. vm_compute. reflexivity. Qed.

Example runner_letter_digit_run :
  Sample.parse (put 135 [x10; x0a] Sample.runner_datagram)
  = ([LogDebug "discovered a Runner switch switcher device"],
     Raise ValueError).
Proof. vm_compute. reflexivity. Qed.

(** C1, counterexample.  A 165-byte payload that starts with FE F0 passes
    the gate of the claim, and no device is produced for it: its model code
    "0000" is no device type. *)
Lemma magic_gate_alone_not_sufficient :
  ~ (delivered (Sample.parse Sample.bare_datagram) <> []
     <-> magic_and_length Sample.bare_datagram).
Proof.
  intros [_ H].
  assert (magic_and_length Sample.bare_datagram) as Hm
    by (split; [reflexivity | left; reflexivity]).
  apply H in Hm. apply Hm. vm_compute. reflexivity.
Qed.

(** C2, counterexample.  Parsing the S1 datagram with the byte FF in its
    name does not return: it raises [UnicodeDecodeError]. *)
Lemma parse_raises_on_bad_name :
  ~ exists trace, Sample.parse Sample.bad_name_datagram = (trace, Ok tt).
Proof.
  intros [trace H]. vm_compute in H. discriminate H.
Qed.

(** C3, the failing input.  The S1 datagram with the model code FF FF passes
    the gate and resolves to no device type; the parser raises [KeyError],
    does not call the sink and emits no warning. *)
Lemma unknown_model_raises_key_error :
  magic_and_length Sample.unknown_model_datagram
  /\ hexlify (slice 74 76 Sample.unknown_model_datagram) = "ffff"
  /\ Sample.parse Sample.unknown_model_datagram = ([], Raise KeyError)
  /\ delivered (Sample.parse Sample.unknown_model_datagram) = []
  /\ warnings (Sample.parse Sample.unknown_model_datagram) = [].
Proof.
  split; [split; [reflexivity | left; reflexivity]|].
  repeat split; vm_compute; reflexivity.
Qed.

(** C4, counterexample.  For the Runner datagram with the bytes 10 25 at
    offset 135 the record carries the position 41 (0x10 + 25), where the
    reading of the offset table (first byte decimal, second byte
    hexadecimal) gives 47 (10 + 0x25). *)
Lemma shutter_position_not_as_tabled :
  ~ (forall dt state id ip mac name position direction,
       In (SwitcherShutter dt state id ip mac name position direction)
          (delivered (Sample.parse Sample.runner_datagram)) ->
       shutter_position_as_specified Sample.runner_datagram = Ok position).
Proof.
  intros H.
  specialize (H Sample.RUNNER DeviceState.ON "000000" "0.0.0.0"
                "00:00:00:00:00:00" "" 41 ShutterDirection.SHUTTER_STOP).
  assert (shutter_position_as_specified Sample.runner_datagram = Ok 47) as E
    by (vm_compute; reflexivity).
  rewrite E in H. enough (Ok 47 = Ok 41) by discriminate.
  apply H. vm_compute. left. reflexivity.
Qed.

(** The Runner datagram with the bytes 10 25: position 0x10 + 25 = 41; and
    with the bytes 10 0A: [ValueError] and nothing for the sink. *)
Lemma shutter_position_decoding_witness :
  Sample.runner_datagram !! 135%nat = Some x10
  /\ Sample.runner_datagram !! 136%nat = Some x25
  /\ get_shutter_position Sample.runner_datagram = Ok 41
  /\ (forall dt state id ip mac name position direction,
        In (SwitcherShutter dt state id ip mac name position direction)
           (delivered (Sample.parse Sample.runner_datagram)) ->
        position = 41)
  /\ put 135 [x10; x0a] Sample.runner_datagram !! 136%nat = Some x0a
  /\ Sample.parse (put 135 [x10; x0a] Sample.runner_datagram)
     = ([LogDebug "discovered a Runner switch switcher device"],
        Raise ValueError)
  /\ delivered (Sample.parse (put 135 [x10; x0a] Sample.runner_datagram))
     = [].
Proof.
  destruct (shutter_position_decoding Sample.members Sample.BREEZE
              Sample.direction_value Sample.mode_value Sample.fan_level_value
              Sample.runner_datagram x10 x25 eq_refl eq_refl)
    as (Hvalue & Hrecord & _).
  destruct (shutter_position_decoding Sample.members Sample.BREEZE
              Sample.direction_value Sample.mode_value Sample.fan_level_value
              (put 135 [x10; x0a] Sample.runner_datagram) x10 x0a
              eq_refl eq_refl)
    as (_ & _ & Hletter).
  destruct (Hletter eq_refl) as (_ & _ & Hrun).
  destruct (Hrun Sample.RUNNER eq_refl eq_refl eq_refl) as (Hnone & Hraise).
  split; [reflexivity|]. split; [reflexivity|]. split; [exact Hvalue|].
  split; [exact Hrecord|]. split; [reflexivity|].
  split; [exact (Hraise "" eq_refl)|exact Hnone].
Defined.

(** C5, counterexample.  The S1 datagram does not yield the record the
    scenario expects: the address comes out as "4.3.2.1" and the remaining
    time as "01:08:30". *)
Lemma s1_expected_record_not_delivered :
  ~ exists dt mac name auto_shutdown,
      In (SwitcherWaterHeater dt DeviceState.ON "3933ac" "1.2.3.4" mac name
            1440 65 "01:08:46" auto_shutdown)
         (delivered (Sample.parse Sample.s1_datagram)).
Proof.
  intros (dt & mac & name & auto & H).
  vm_compute in H. destruct H as [H|[]]. discriminate H.
Qed.

(** The S1 datagram under the sample catalogue. *)
Lemma water_heater_discovery_witness :
  exists auto_shutdown,
    Sample.parse Sample.s1_datagram
    = ([LogDebug "discovered a water heater switcher device";
        Callback (SwitcherWaterHeater Sample.HEATER DeviceState.ON "3933ac"
                    "4.3.2.1" (get_mac Sample.s1_datagram) "Boiler" 1440 65
                    "01:08:30" auto_shutdown)],
       Ok tt).
Proof.
  apply (water_heater_discovery Sample.members Sample.BREEZE
           Sample.direction_value Sample.mode_value Sample.fan_level_value
           Sample.s1_datagram Sample.HEATER "Boiler");
    reflexivity.
Defined.

(** S1 switched off: the power bytes A0 05 and the remaining bytes
    0E 10 00 00 are still in the datagram. *)
Lemma off_means_zero_witness :
  In Sample.s1_off_record (delivered (Sample.parse Sample.s1_off_datagram))
  /\ device_state_of Sample.s1_off_record = DeviceState.OFF
  /\ match Sample.s1_off_record with
     | SwitcherWaterHeater _ _ _ _ _ _ power current remaining _ =>
         power = 0 /\ current = 0 /\ remaining = "00:00:00"
     | SwitcherPowerPlug _ _ _ _ _ _ power current =>
         power = 0 /\ current = 0
     | _ => True
     end.
Proof.
  assert (In Sample.s1_off_record
            (delivered (Sample.parse Sample.s1_off_datagram))) as Hin
    by (vm_compute; left; reflexivity).
  split; [exact Hin|]. split; [reflexivity|].
  exact (off_means_zero Sample.members Sample.BREEZE Sample.direction_value
           Sample.mode_value Sample.fan_level_value Sample.s1_off_datagram
           Sample.s1_off_record Hin eq_refl).
Defined.

(** The mode byte 02 is DRY in the sample catalogue, the mode byte 09 is no
    mode and falls back to COOL. *)
Lemma thermostat_mode_decoding_witness :
  Sample.breeze_datagram !! 138%nat = Some x02
  /\ get_thermostat_mode Sample.mode_value Sample.breeze_datagram
     = ThermostatMode.DRY
  /\ Sample.breeze_odd_mode_datagram !! 138%nat = Some x09
  /\ get_thermostat_mode Sample.mode_value Sample.breeze_odd_mode_datagram
     = ThermostatMode.COOL.
Proof.
  destruct (thermostat_mode_decoding Sample.members Sample.BREEZE
              Sample.direction_value Sample.mode_value Sample.fan_level_value
              Sample.breeze_datagram x02 eq_refl) as (_ & Hknown & _).
  destruct (thermostat_mode_decoding Sample.members Sample.BREEZE
              Sample.direction_value Sample.mode_value Sample.fan_level_value
              Sample.breeze_odd_mode_datagram x09 eq_refl) as (Hdefault & _).
  split; [reflexivity|]. split; [|split; [reflexivity|]].
  - apply (Hknown ThermostatMode.DRY eq_refl).
    intros other. destruct other; intros E; (reflexivity || discriminate E).
  - apply Hdefault. intros mode. destruct mode; discriminate.
Defined.

(** The Runner datagram, whose byte at offset 133 is 00. *)
Lemma shutter_state_always_on_witness :
  In Sample.runner_record (delivered (Sample.parse Sample.runner_datagram))
  /\ device_state_of Sample.runner_record = DeviceState.ON.
Proof.
  assert (In Sample.runner_record
            (delivered (Sample.parse Sample.runner_datagram))) as Hin
    by (vm_compute; left; reflexivity).
  split; [exact Hin|].
  exact (shutter_state_always_on Sample.members Sample.BREEZE
           Sample.direction_value Sample.mode_value Sample.fan_level_value
           Sample.runner_datagram _ _ _ _ _ _ _ _ Hin).
Defined.

(** ** The getters and the records on the sample datagrams *)

Example breeze_full_run :
  Sample.parse Fixtures.breeze_full_datagram
  = ([LogDebug "discovered a Breeze switcher device";
      Callback Fixtures.breeze_full_record],
     Ok tt).
Proof. vm_compute. reflexivity. Qed.

Lemma ip_type1_wire_order_witness :
  Sample.s1_datagram !! 76%nat = Some x04
  /\ get_ip_type1 Sample.s1_datagram = Ok "4.3.2.1".
Proof.
  split; [reflexivity|].
  exact (ip_type1_wire_order Sample.s1_datagram x04 x03 x02 x01
           eq_refl eq_refl eq_refl eq_refl).
Defined.

Lemma ip_type2_wire_order_witness :
  Fixtures.breeze_full_datagram !! 77%nat = Some xc0
  /\ get_ip_type2 Fixtures.breeze_full_datagram = Ok "192.168.1.10".
Proof.
  split; [reflexivity|].
  exact (ip_type2_wire_order Fixtures.breeze_full_datagram xc0 xa8 x01 x0a
           eq_refl eq_refl eq_refl eq_refl).
Defined.

Lemma type2_address_overlaps_mac_witness :
  Fixtures.breeze_full_datagram !! 80%nat = Some x0a
  /\ get_ip_type2 Fixtures.breeze_full_datagram = Ok "192.168.1.10"
  /\ get_mac Fixtures.breeze_full_datagram = "0A:11:22:33:44:55".
Proof.
  split; [reflexivity|].
  exact (type2_address_overlaps_mac Fixtures.breeze_full_datagram
           xc0 xa8 x01 x0a x11 x22 x33 x44 x55
           eq_refl eq_refl eq_refl eq_refl eq_refl eq_refl eq_refl eq_refl
           eq_refl).
Defined.

Lemma power_consumption_little_endian_witness :
  Sample.s1_datagram !! 135%nat = Some xa0
  /\ Sample.s1_datagram !! 136%nat = Some x05
  /\ get_power_consumption Sample.s1_datagram = Ok 1440.
Proof.
  split; [reflexivity|]. split; [reflexivity|].
  exact (proj1 (power_consumption_little_endian Sample.s1_datagram xa0 x05
                  eq_refl eq_refl)).
Defined.

Lemma durations_little_endian_witness :
  get_remaining Sample.s1_datagram = Ok (seconds_to_iso_time 4110)
  /\ get_auto_shutdown Sample.s1_datagram = Ok (seconds_to_iso_time 0).
Proof.
  exact (durations_little_endian Sample.s1_datagram x0e x10 x00 x00
           x00 x00 x00 x00 eq_refl eq_refl eq_refl eq_refl
           eq_refl eq_refl eq_refl eq_refl).
Defined.

Lemma device_id_hex_witness :
  Sample.s1_datagram !! 18%nat = Some x39
  /\ get_device_id Sample.s1_datagram = "3933ac".
Proof.
  split; [reflexivity|].
  exact (proj1 (device_id_hex Sample.s1_datagram x39 x33 xac
                  eq_refl eq_refl eq_refl)).
Defined.

Lemma thermostat_temperatures_witness :
  get_thermostat_temp Fixtures.breeze_full_datagram = Ok 230
  /\ get_thermostat_target_temp Fixtures.breeze_full_datagram = Ok 24.
Proof.
  destruct (thermostat_temperatures Fixtures.breeze_full_datagram xe6 x00 x18
              eq_refl eq_refl eq_refl) as (Htemp & Htarget & _).
  split; [exact Htemp|exact Htarget].
Defined.

Lemma thermostat_swing_low_nibble_witness :
  Fixtures.breeze_full_datagram !! 140%nat = Some x31
  /\ get_thermostat_swing Fixtures.breeze_full_datagram = ThermostatSwing.ON.
Proof.
  split; [reflexivity|].
  destruct (thermostat_swing_low_nibble Fixtures.breeze_full_datagram x31
              eq_refl) as [_ Hon].
  apply Hon. discriminate.
Defined.

Lemma shutter_direction_lookup_witness :
  get_shutter_direction Sample.direction_value Sample.runner_datagram
  = Ok ShutterDirection.SHUTTER_STOP
  /\ Sample.direction_value ShutterDirection.SHUTTER_STOP = "0000".
Proof.
  split; [reflexivity|].
  exact (proj1 (shutter_direction_lookup Sample.direction_value
                  Sample.runner_datagram x00 x00 eq_refl eq_refl)
           ShutterDirection.SHUTTER_STOP eq_refl).
Defined.

Lemma fan_level_high_nibble_witness :
  get_thermostat_fan_level Sample.fan_level_value
    Fixtures.breeze_full_datagram = Ok ThermostatFanLevel.HIGH
  /\ Sample.fan_level_value ThermostatFanLevel.HIGH = "3".
Proof.
  split; [reflexivity|].
  exact (proj1 (fan_level_high_nibble Sample.fan_level_value
                  Fixtures.breeze_full_datagram x31 eq_refl)
           ThermostatFanLevel.HIGH eq_refl).
Defined.

Lemma shutter_position_range_witness :
  get_shutter_position Sample.runner_datagram = Ok 41 /\ 0 <= 41 <= 354
  /\ get_shutter_position (put 135 [xff; x99] Sample.runner_datagram) = Ok 354
  /\ get_shutter_position (put 135 [x64; x01] Sample.runner_datagram) = Ok 101.
Proof.
  split; [reflexivity|]. split.
  - exact (proj1 (shutter_position_range Sample.runner_datagram) 41 eq_refl).
  - split.
    + destruct (shutter_position_range
                  (put 135 [xff; x99] Sample.runner_datagram))
        as (_ & _ & Hmax & _).
      exact (Hmax eq_refl eq_refl).
    + destruct (shutter_position_range
                  (put 135 [x64; x01] Sample.runner_datagram))
        as (_ & _ & _ & Hover).
      exact (Hover eq_refl eq_refl).
Defined.

Lemma breeze_full_delivered :
  In Fixtures.breeze_full_record
    (delivered (Sample.parse Fixtures.breeze_full_datagram)).
Proof. vm_compute. left. reflexivity. Defined.

Lemma s1_delivered :
  In Fixtures.s1_record (delivered (Sample.parse Sample.s1_datagram)).
Proof. vm_compute. left. reflexivity. Defined.

Lemma record_identity_witness :
  get_device_type Sample.members Fixtures.breeze_full_datagram
  = Ok Sample.BREEZE
  /\ "3c4e92" = get_device_id Fixtures.breeze_full_datagram
  /\ "0A:11:22:33:44:55" = get_mac Fixtures.breeze_full_datagram
  /\ get_name Fixtures.breeze_full_datagram = Ok "Air"
  /\ category Sample.BREEZE = DeviceCategory.THERMOSTAT.
Proof.
  exact (record_identity Sample.members Sample.BREEZE Sample.direction_value
           Sample.mode_value Sample.fan_level_value
           Fixtures.breeze_full_datagram Fixtures.breeze_full_record
           breeze_full_delivered).
Defined.

Lemma record_address_by_family_witness :
  get_ip_type2 Fixtures.breeze_full_datagram = Ok "192.168.1.10"
  /\ get_ip_type1 Sample.s1_datagram = Ok "4.3.2.1".
Proof.
  split.
  - exact (record_address_by_family Sample.members Sample.BREEZE
             Sample.direction_value Sample.mode_value Sample.fan_level_value
             Fixtures.breeze_full_datagram Fixtures.breeze_full_record
             breeze_full_delivered).
  - exact (record_address_by_family Sample.members Sample.BREEZE
             Sample.direction_value Sample.mode_value Sample.fan_level_value
             Sample.s1_datagram Fixtures.s1_record s1_delivered).
Defined.

Lemma record_state_source_witness :
  DeviceState.ON = get_thermostat_state Fixtures.breeze_full_datagram
  /\ DeviceState.ON = get_device_state Sample.s1_datagram.
Proof.
  split.
  - apply (record_state_source Sample.members Sample.BREEZE
             Sample.direction_value Sample.mode_value Sample.fan_level_value
             Fixtures.breeze_full_datagram Fixtures.breeze_full_record
             breeze_full_delivered); [discriminate|reflexivity].
  - apply (record_state_source Sample.members Sample.BREEZE
             Sample.direction_value Sample.mode_value Sample.fan_level_value
             Sample.s1_datagram Fixtures.s1_record s1_delivered);
      discriminate.
Defined.

Lemma record_power_fields_witness :
  get_auto_shutdown Sample.s1_datagram = Ok "00:00:00"
  /\ (DeviceState.ON = DeviceState.ON ->
      get_power_consumption Sample.s1_datagram = Ok 1440
      /\ 65 = watts_to_amps 1440
      /\ get_remaining Sample.s1_datagram = Ok "01:08:30").
Proof.
  exact (record_power_fields Sample.members Sample.BREEZE
           Sample.direction_value Sample.mode_value Sample.fan_level_value
           Sample.s1_datagram Fixtures.s1_record s1_delivered).
Defined.

Lemma record_type2_fields_witness :
  get_thermostat_temp Fixtures.breeze_full_datagram = Ok 230
  /\ get_thermostat_target_temp Fixtures.breeze_full_datagram = Ok 24
  /\ get_thermostat_fan_level Sample.fan_level_value
       Fixtures.breeze_full_datagram = Ok ThermostatFanLevel.HIGH
  /\ ThermostatSwing.ON = get_thermostat_swing Fixtures.breeze_full_datagram
  /\ get_thermostat_remote_id Fixtures.breeze_full_datagram = Ok "ELEC7022".
Proof.
  exact (record_type2_fields Sample.members Sample.BREEZE
           Sample.direction_value Sample.mode_value Sample.fan_level_value
           Fixtures.breeze_full_datagram Fixtures.breeze_full_record
           breeze_full_delivered).
Defined.

Lemma numeric_getters_total_on_gate_witness :
  is_switcher_originator Sample.s1_datagram = true
  /\ is_ok (get_power_consumption Sample.s1_datagram).
Proof.
  split; [reflexivity|].
  destruct (numeric_getters_total_on_gate Sample.s1_datagram eq_refl)
    as (_ & _ & H & _).
  exact H.
Defined.

(** ** The TCP protocol engine *)

Section EngineProperties.

Variable login_packet : bytes.
Variable request_packet : string -> bytes -> bytes.
Variable well_formed_login : bytes -> bool.
Variable well_formed_response : string -> bytes -> bool.

Abbreviation operation :=
  (Api.operation login_packet request_packet well_formed_login
     well_formed_response).

(** C8.  Whatever the packets and the tests of well-formedness of the
    engine are: an empty read during login fails the operation with a
    message that contains "login request was not successful" after exactly
    one write, the login packet; an empty read on the request that follows
    a well-formed login response fails it with "<operation> request was not
    successful" after exactly two writes, the login packet and the request
    with the session token of the login response. *)
Theorem empty_read_fails (name : string) :
  (forall script,
     hd [] script = [] ->
     exists message c,
       operation name (Api.connect script) = (Api.RuntimeError message, c)
       /\ Api.contains "login request was not successful" message
       /\ length (Api.written c) = 1%nat
       /\ Api.written c = [login_packet])
  /\ (forall login_response script,
        login_response <> [] ->
        well_formed_login login_response = true ->
        hd [] script = [] ->
        exists c,
          operation name (Api.connect (login_response :: script))
          = (Api.RuntimeError (name ++ " request was not successful"), c)
          /\ length (Api.written c) = 2%nat
          /\ Api.written c
             = [login_packet;
                request_packet name (slice 16 20 login_response)]).
Proof.
  split.
  - intros script Hempty.
    exists "login request was not successful".
    unfold Api.operation, Api.connect, Api.write, Api.read. cbn.
    destruct script as [|r rest]; cbn in *; subst; cbn;
      eexists; (split; [reflexivity|]);
      (split; [exists "", ""; reflexivity | split; reflexivity]).
  - intros login_response script Hne Hlogin Hempty.
    unfold Api.operation, Api.connect, Api.write, Api.read. cbn.
    destruct login_response as [|b0 login_response]; [congruence|].
    rewrite Hlogin. cbn.
    destruct script as [|r rest]; cbn in *; subst; cbn;
      eexists; (split; [reflexivity|split; reflexivity]).
Qed.

End EngineProperties.

(** The engine that accepts every response that is not empty, on the
    scripts of the two tests of get_state. *)
Lemma empty_read_fails_witness :
  (exists message c,
     Api.operation [xfe; xf0] (fun _ token => token) (fun _ => true)
       (fun _ _ => true) "get state" (Api.connect [ [] ])
     = (Api.RuntimeError message, c)
     /\ Api.contains "login request was not successful" message
     /\ length (Api.written c) = 1%nat)
  /\ (exists c,
        Api.operation [xfe; xf0] (fun _ token => token) (fun _ => true)
          (fun _ _ => true) "get state" (Api.connect [ [xfe; xf0]; [] ])
        = (Api.RuntimeError "get state request was not successful", c)
        /\ length (Api.written c) = 2%nat).
Proof.
  pose proof (empty_read_fails [xfe; xf0] (fun _ token => token)
                (fun _ => true) (fun _ _ => true) "get state")
    as [Hlogin Hrequest].
  split.
  - destruct (Hlogin [ [] ] eq_refl) as (message & c & E & Hc & Hw & _).
    exists message, c. repeat split; assumption.
  - destruct (Hrequest [xfe; xf0] [ [] ] ltac:(discriminate) eq_refl eq_refl)
      as (c & E & Hw & _).
    exists c. split; assumption.
Defined.

(** ** The bridge: [start] and [stop] *)

Lemma close_length (tr : nat) (loop : list Loop.endpoint) :
  length (Loop.close tr loop) = length loop.
Proof. unfold Loop.close. apply length_alter. Qed.

Lemma close_ports (tr : nat) (loop : list Loop.endpoint) :
  map Loop.local_port (Loop.close tr loop) = map Loop.local_port loop.
Proof.
  unfold Loop.close. revert tr. induction loop as [|e loop IH]; intros tr.
  - reflexivity.
  - destruct tr as [|tr]; cbn; [reflexivity|]. f_equal. apply IH.
Qed.

Lemma close_lookup_ne (tr h : nat) (loop : list Loop.endpoint) :
  tr <> h -> Loop.close tr loop !! h = loop !! h.
Proof. intros H. unfold Loop.close. apply list_lookup_alter_ne, H. Qed.

Lemma is_closing_close (tr : nat) (loop : list Loop.endpoint) :
  Loop.is_closing tr (Loop.close tr loop) = true.
Proof.
  unfold Loop.is_closing, Loop.close. rewrite list_lookup_alter.
  rewrite decide_True by reflexivity. destruct (loop !! tr); reflexivity.
Qed.

Lemma is_closing_close_mono (tr h : nat) (loop : list Loop.endpoint) :
  Loop.is_closing h loop = true -> Loop.is_closing h (Loop.close tr loop) = true.
Proof.
  intros H. destruct (decide (tr = h)) as [->|Hne]; [apply is_closing_close|].
  unfold Loop.is_closing. rewrite close_lookup_ne by assumption. exact H.
Qed.

Lemma stop_ports_spec (ports : list Z) (self : SwitcherBridge)
  (loop : list Loop.endpoint) :
  let loop' := (stop_ports ports self loop).2 in
  length (stop_ports ports self loop).1 = length ports
  /\ map Loop.local_port loop' = map Loop.local_port loop
  /\ (forall h, Loop.is_closing h loop = true -> Loop.is_closing h loop' = true)
  /\ (forall port tr, In port ports -> _transports self !! port = Some tr ->
                      Loop.is_closing tr loop' = true)
  /\ (forall h, (forall port, In port ports ->
                              _transports self !! port <> Some h) ->
                loop' !! h = loop !! h).
Proof.
  revert loop. induction ports as [|port rest IH]; intros loop.
  - cbn. repeat split; auto; intros port tr [].
  - cbn [stop_ports].
    set (step := match _transports self !! port with
                 | Some tr => _ | None => _ end).
    destruct step as [record loop1] eqn:Hstep.
    specialize (IH loop1).
    destruct (stop_ports rest self loop1) as [logs loop2] eqn:Hrest.
    cbn [fst snd] in *. destruct IH as (Hlen & Hports & Hmono & Hclosed & Hother).
    assert (map Loop.local_port loop1 = map Loop.local_port loop
            /\ (forall h, Loop.is_closing h loop = true ->
                          Loop.is_closing h loop1 = true)
            /\ (forall tr, _transports self !! port = Some tr ->
                           Loop.is_closing tr loop1 = true)
            /\ (forall h, _transports self !! port <> Some h ->
                          loop1 !! h = loop !! h)) as (Hp1 & Hm1 & Hc1 & Ho1).
    { subst step. destruct (_transports self !! port) as [tr|].
      - destruct (Loop.is_closing tr loop) eqn:Hc; cbn in Hstep;
          injection Hstep as <- <-.
        + repeat split; auto. intros tr' [= <-]. exact Hc.
        + split; [apply close_ports|]. split; [intros h; apply is_closing_close_mono|].
          split; [intros tr' [= <-]; apply is_closing_close|].
          intros h Hh. apply close_lookup_ne. congruence.
      - injection Hstep as <- <-. repeat split; auto. discriminate. }
    split; [cbn; lia|]. split; [congruence|]. split; [auto|]. split.
    + intros p tr [<-|Hin] Htr; [apply Hmono, Hc1, Htr|eapply Hclosed; eassumption].
    + intros h Hh. rewrite Hother, Ho1; [reflexivity| |].
      * apply Hh. left. reflexivity.
      * intros p Hin. apply Hh. right. exact Hin.
Qed.

Lemma stop_ports_noop (ports : list Z) (self : SwitcherBridge)
  (loop : list Loop.endpoint) :
  (forall port tr, In port ports -> _transports self !! port = Some tr ->
                   Loop.is_closing tr loop = true) ->
  stop_ports ports self loop = (map not_started ports, loop).
Proof.
  induction ports as [|port rest IH]; intros H; [reflexivity|].
  cbn [stop_ports map].
  assert (match _transports self !! port with
          | Some tr =>
              if negb (Loop.is_closing tr loop)
              then (Info ("stopping the udp bridge on port " ++ str_of_int port),
                    Loop.close tr loop)
              else (not_started port, loop)
          | None => (not_started port, loop)
          end = (not_started port, loop)) as E.
  { destruct (_transports self !! port) as [tr|] eqn:Htr; [|reflexivity].
    rewrite (H port tr (or_introl eq_refl) Htr). reflexivity. }
  unfold not_started in E at 1 2. rewrite E. fold (not_started port).
  rewrite IH; [reflexivity|]. intros p tr Hin. apply H. right. exact Hin.
Qed.

(** X23.  [stop] marks the bridge as not running, keeps its registered
    transports, logs one record for each port, leaves every endpoint that is
    registered for one of its ports closing, and leaves every other endpoint
    of the loop and every bound port as they are. *)
Theorem stop_closes_registered (self : SwitcherBridge)
  (loop : list Loop.endpoint) :
  let '(logs, (self', loop')) := stop self loop in
  is_running self' = false
  /\ _transports self' = _transports self
  /\ _broadcast_ports self' = _broadcast_ports self
  /\ length logs = length (_broadcast_ports self)
  /\ map Loop.local_port loop' = map Loop.local_port loop
  /\ (forall port tr e,
        In port (_broadcast_ports self) ->
        _transports self !! port = Some tr ->
        loop' !! tr = Some e ->
        Loop.closing e = true)
  /\ (forall h,
        (forall port, In port (_broadcast_ports self) ->
                      _transports self !! port <> Some h) ->
        loop' !! h = loop !! h).
Proof.
  unfold stop.
  pose proof (stop_ports_spec (_broadcast_ports self) self loop) as H.
  destruct (stop_ports _ self loop) as [logs loop'].
  cbn [fst snd] in H. destruct H as (Hlen & Hports & _ & Hclosed & Hother).
  cbn. repeat split; try assumption.
  intros port tr e Hin Htr He. specialize (Hclosed port tr Hin Htr).
  unfold Loop.is_closing in Hclosed. rewrite He in Hclosed. exact Hclosed.
Qed.

(** X24.  A second [stop] closes nothing: after a [stop], stopping again
    leaves the bridge and the loop as they are and logs "not started" for
    each port. *)
Theorem stop_twice (self : SwitcherBridge) (loop : list Loop.endpoint) :
  let '(_, (self', loop')) := stop self loop in
  stop self' loop'
  = (map not_started (_broadcast_ports self), (self', loop')).
Proof.
  unfold stop.
  pose proof (stop_ports_spec (_broadcast_ports self) self loop) as H.
  destruct (stop_ports _ self loop) as [logs loop'].
  cbn [fst snd] in H. destruct H as (_ & _ & _ & Hclosed & _).
  cbn [_broadcast_ports _transports _is_running].
  rewrite stop_ports_noop; [reflexivity|]. exact Hclosed.
Qed.

Example stop_negative_port :
  stop (__init__ [-1]) []
  = ([Info "udp bridge on port -1 not started"], (__init__ [-1], [])).
Proof. vm_compute. reflexivity. Qed.

(** X25.  Stopping a bridge that was never started raises nothing and
    touches no endpoint: it logs "not started" for each port and the bridge
    is not running. *)
Theorem stop_before_start (ports : list Z) (loop : list Loop.endpoint) :
  stop (__init__ ports) loop
  = (map not_started ports, (__init__ ports, loop)).
Proof.
  unfold stop. cbn [__init__ _broadcast_ports _transports _is_running].
  rewrite stop_ports_noop; [reflexivity|].
  intros port tr _ H. cbn in H. rewrite lookup_empty in H. discriminate.
Qed.

Lemma lookup_in_datagram_Z (l : list Z) (i : nat) :
  (i < length l)%nat -> exists x, l !! i = Some x.
Proof. intros Hi. apply lookup_lt_is_Some_2 in Hi. destruct Hi; eauto. Qed.

Section BridgeStart.

Variable can_bind : list Loop.endpoint -> Z -> bool.

Lemma start_ports_ok (ports : list Z) :
  forall self loop logs self' loop',
    start_ports can_bind ports self loop = (logs, Ok tt, (self', loop')) ->
    loop' = (loop ++ map opened ports)%list
    /\ _is_running self' = _is_running self
    /\ _broadcast_ports self' = _broadcast_ports self
    /\ (forall port, In port ports ->
          exists tr, _transports self' !! port = Some tr
                     /\ (length loop <= tr)%nat
                     /\ loop' !! tr = Some (opened port))
    /\ (forall port, ~ In port ports ->
          _transports self' !! port = _transports self !! port)
    /\ (NoDup ports -> forall i port,
          ports !! i = Some port ->
          _transports self' !! port = Some (length loop + i)%nat).
Proof.
  induction ports as [|p rest IH]; intros self loop logs self' loop' H.
  - cbn in H. injection H as <- <- <-. rewrite app_nil_r.
    split; [reflexivity|]. split; [reflexivity|]. split; [reflexivity|].
    split; [intros port []|]. split; [reflexivity|].
    intros _ i port Hi. discriminate.
  - cbn [start_ports] in H. unfold Loop.create_datagram_endpoint in H.
    destruct (negb _); [discriminate|].
    destruct (can_bind loop p); [|discriminate].
    set (self1 := {| _broadcast_ports := _broadcast_ports self;
                     _is_running := _is_running self;
                     _transports := <[p:=length loop]> (_transports self) |})
      in H.
    set (loop1 := (loop ++ [opened p])%list).
    change (loop ++ [{| Loop.local_port := p; Loop.closing := false |}])%list
      with loop1 in H.
    destruct (start_ports can_bind rest self1 loop1) as [[logs1 r1] w1] eqn:E.
    injection H as <- -> ->.
    destruct (IH _ _ _ _ _ E) as (Hloop & Hrun & Hports & Hreg & Hsame & Hidx).
    assert (length loop1 = S (length loop)) as Hlen1
      by (unfold loop1; rewrite length_app; cbn; lia).
    assert (loop' = (loop ++ opened p :: map opened rest)%list) as Hloop'.
    { rewrite Hloop. unfold loop1. rewrite <- app_assoc. reflexivity. }
    assert (~ In p rest -> _transports self' !! p = Some (length loop)) as Hp.
    { intros Hnot. rewrite (Hsame p Hnot). cbn. apply lookup_insert_eq. }
    split; [exact Hloop'|]. split; [exact Hrun|]. split; [exact Hports|].
    split; [|split].
    + intros port Hin.
      destruct (in_dec Z.eq_dec port rest) as [Hrest|Hrest].
      * destruct (Hreg port Hrest) as (tr & Htr & Hge & Hlook).
        exists tr. split; [exact Htr|]. split; [lia|exact Hlook].
      * destruct Hin as [<-|Hin]; [|contradiction].
        exists (length loop). split; [apply Hp, Hrest|]. split; [lia|].
        rewrite Hloop'. apply list_lookup_middle. reflexivity.
    + intros port Hnot. rewrite Hsame by (intros Hin; apply Hnot; right; exact Hin).
      cbn. apply lookup_insert_ne. intros ->. apply Hnot. left. reflexivity.
    + intros Hnodup i port Hi. apply NoDup_cons in Hnodup.
      destruct Hnodup as [Hnot Hnodup]. destruct i as [|i].
      * injection Hi as <-. rewrite Nat.add_0_r. apply Hp.
        intros Hin. apply Hnot, list_elem_of_In, Hin.
      * rewrite (Hidx Hnodup i port Hi). f_equal. lia.
Qed.





(** X28.  For a bridge whose ports are distinct, [stop] after a [start]
    that returned closes every endpoint that the [start] created and leaves
    the endpoints that the loop had before, those of an earlier [start]
    included, as they were. *)
Theorem start_then_stop_releases
  (self self' : SwitcherBridge) (loop loop' : list Loop.endpoint)
  (logs : list log_record) :
  NoDup (_broadcast_ports self) ->
  start can_bind self loop = (logs, Ok tt, (self', loop')) ->
  let '(_, (stopped, loop'')) := stop self' loop' in
  is_running stopped = false
  /\ length loop'' = (length loop + length (_broadcast_ports self))%nat
  /\ (forall h e, (length loop <= h)%nat -> loop'' !! h = Some e ->
                   Loop.closing e = true)
  /\ (forall h, (h < length loop)%nat -> loop'' !! h = loop !! h).
Proof.
  unfold start, stop. intros Hnodup H.
  destruct (start_ports can_bind _ self loop) as [[logs1 r1] [self1 loop1]] eqn:E.
  destruct r1 as [[]|e]; [|discriminate]. injection H as <- <- <-.
  destruct (start_ports_ok _ _ _ _ _ _ E) as (Hloop & _ & Hports & Hreg & _ & Hidx).
  specialize (Hidx Hnodup).
  cbn [_broadcast_ports _transports].
  set (running := {| _broadcast_ports := _broadcast_ports self1;
                     _is_running := true;
                     _transports := _transports self1 |}).
  pose proof (stop_ports_spec (_broadcast_ports self1) running loop1) as Hs.
  destruct (stop_ports _ running loop1) as [logs2 loop2].
  cbn [fst snd] in Hs. destruct Hs as (_ & Hmap & _ & Hclosed & Hother).
  rewrite Hports in *.
  assert (length loop2 = length loop1) as Hlen
    by (rewrite <- (length_map Loop.local_port loop2), Hmap, length_map;
        reflexivity).
  assert (length loop1 = (length loop + length (_broadcast_ports self))%nat)
    as Hlen1 by (rewrite Hloop, length_app, length_map; reflexivity).
  cbn. split; [reflexivity|]. split; [lia|]. split.
  - intros h e Hh He.
    assert (h < length loop2)%nat as Hlt by (eapply lookup_lt_Some; exact He).
    destruct (lookup_in_datagram_Z (_broadcast_ports self) (h - length loop))
      as [port Hport]; [lia|].
    assert (Loop.is_closing h loop2 = true) as Hc.
    { apply (Hclosed port h).
      - apply list_elem_of_In. eapply list_elem_of_lookup_2. exact Hport.
      - cbn. rewrite (Hidx _ _ Hport). f_equal. lia. }
    unfold Loop.is_closing in Hc. rewrite He in Hc. exact Hc.
  - intros h Hh. rewrite Hother.
    + rewrite Hloop. apply lookup_app_l. exact Hh.
    + intros port Hin. cbn. destruct (Hreg port Hin) as (tr & -> & Hge & _).
      intros [= ->]. lia.
Qed.

End BridgeStart.



Lemma start_then_stop_releases_witness :
  exists logs self' loop',
    NoDup default_broadcast_ports
    /\ start (fun _ _ => true) (__init__ default_broadcast_ports) []
       = (logs, Ok tt, (self', loop'))
    /\ forall h e, (stop self' loop').2.2 !! h = Some e ->
                    Loop.closing e = true.
Proof.
  assert (NoDup default_broadcast_ports) as Hnodup.
  { apply NoDup_cons. split; [|apply NoDup_singleton].
    intros H. apply list_elem_of_In in H. destruct H as [H|[]].
    discriminate H. }
  destruct (start (fun _ _ => true) (__init__ default_broadcast_ports) [])
    as [[logs r] [self' loop']] eqn:E.
  assert (r = Ok tt) as -> by (vm_compute in E; congruence).
  exists logs, self', loop'. split; [exact Hnodup|]. split; [reflexivity|].
  pose proof (start_then_stop_releases (fun _ _ => true)
                (__init__ default_broadcast_ports) self' [] loop' logs
                Hnodup E) as H.
  destruct (stop self' loop') as [logs2 [stopped loop2]].
  destruct H as (_ & _ & Hclosed & _).
  intros h e. apply Hclosed. cbn. lia.
Defined.
